(** * Crypto data collection

    A shallow embedding of [crypto-analysis-portfolio/src/data_collection.py]
    (class [CryptoDataCollector] and [main]) together with the constants of
    [config/config.py] it reads.

    Conventions of the model.
    - A Python exception is a value of [exn]; a call either returns or raises
      ([outcome]).  Every subclass of [requests.exceptions.RequestException]
      (connection errors, [HTTPError] from [raise_for_status], and the
      [JSONDecodeError] that [Response.json] raises since requests 2.27) is the
      one constructor [RequestException], because the handlers of the module
      catch the base class only.
    - The network, the wall clock and the file system are the environment: the
      remote API is a function from the request to what comes back, the clock a
      function from the number of earlier readings to the time, and the file
      system says which paths can be opened for writing.  What the collector
      does to them is recorded in a [world] that is threaded through the calls.
    - A float64 cell is an IEEE 754 binary64 value ([spec_float] with 53 bits
      of precision), with its signed zeros, infinities and NaN; division and
      subtraction round to nearest even, overflow to an infinity and underflow
      to a zero as the hardware does.  [np.log] of a positive finite float
      [x] is kept as the symbol [Ln x]: the float64 the C library returns for
      the logarithm of [x].
    - A number of a payload is kept as the JSON literal it is.  An integer
      literal is read as a Python [int] of any size; a literal with a fraction
      or an exponent is read as the nearest [float], an infinity when it
      overflows.  JSON has no literal for NaN, so no number of a payload is
      NaN.
    - The columns of a frame are typed as pandas types them: a list of
      integers within 64 bits makes an [int64] or [uint64] column, a list with
      a float makes a [float64] column, and a list with an integer beyond
      64 bits, or with both a negative integer and one above the [int64]
      range, is kept as a column of Python objects, on which arithmetic is
      that of Python ([ZeroDivisionError], [OverflowError]) and [np.log]
      raises [TypeError].
    - A decoded chart payload is a JSON object whose members are arrays of
      arrays of numbers.  Members may be absent, inner arrays may be short and
      the outer arrays may differ in length.  A decoded quote body is [null]
      an array, or a JSON object of flat objects of numbers.  Payloads of
      other shapes (a string or [null] where a number is expected, a scalar
      where an object is expected) are not covered. *)

From Stdlib Require Import List String Ascii ZArith.
From Stdlib Require Import Lia Bool Arith.
From Stdlib Require Import Floats.SpecFloat.
Import ListNotations.

Local Open Scope list_scope.
Local Open Scope nat_scope.

(** ** Exceptions *)

Inductive exn : Type :=
| RequestException
| KeyError
| IndexError
| ValueError
| TypeError
| AttributeError
| OverflowError
| ZeroDivisionError
| OSError.

Inductive outcome (A : Type) : Type :=
| Return (a : A)
| Raise (e : exn).

Arguments Return {A} a.
Arguments Raise {A} e.

Definition obind {A B : Type} (o : outcome A) (f : A -> outcome B) : outcome B :=
  match o with
  | Return a => f a
  | Raise e => Raise e
  end.

Notation "'let*' x ':=' o 'in' k" := (obind o (fun x => k))
  (at level 10, x name, o at level 100, k at level 200).

(** ** Numbers *)

Abbreviation float64 := spec_float (only parsing).

(** A JSON number as it is written: an integer literal, or a literal with a
    fraction or an exponent, of value [(-1)^s * m * 10^e]. *)
Inductive number : Type :=
| PyInt (z : Z)
| PyFloat (s : bool) (m : N) (e : Z).

(** [x / y] on float64. *)
Definition float_div (x y : float64) : float64 := SFdiv 53 1024 x y.

(** [x - y] on float64. *)
Definition float_sub (x y : float64) : float64 := SFsub 53 1024 x y.

(** The float64 [1.0]. *)
Definition one : float64 := SFone 53 1024.

(** [float(z)] on a Python [int], and the conversion of an [int64] or
    [uint64] cell to float64: the nearest float64.  An infinity stands for an
    integer too large for a float64. *)
Definition float_of_int (z : Z) : float64 := binary_normalize 53 1024 z 0 false.

(** The float a literal with a fraction or an exponent is read as: the
    float64 nearest to its value, an infinity when it overflows and a zero of
    its sign when it underflows. *)
Definition float_of_literal (s : bool) (m : N) (e : Z) : float64 :=
  match m with
  | N0 => S754_zero s
  | Npos p =>
      if (0 <=? e)%Z
      then let z := (Zpos p * 10 ^ e)%Z in
           binary_normalize 53 1024 (if s then (- z)%Z else z) 0 s
      else float_div (S754_finite s p 0)
                     (S754_finite false (Z.to_pos (10 ^ (- e))) 0)
  end.

(** A cell of a column: an integer (a Python [int], or a 64-bit integer) or a
    float64. *)
Inductive value : Type :=
| VInt (z : Z)
| VFloat (x : float64).

(** What [json] makes of a number. *)
Definition decode (x : number) : value :=
  match x with
  | PyInt z => VInt z
  | PyFloat s m e => VFloat (float_of_literal s m e)
  end.

(** The float64 of a cell, as arithmetic on a numeric column takes it. *)
Definition to_float (v : value) : float64 :=
  match v with
  | VInt z => float_of_int z
  | VFloat x => x
  end.

(** What [np.log] yields: [Ln x] stands for the float64 logarithm of the
    positive finite float [x]. *)
Inductive logfloat : Type :=
| LogNaN
| LogPosInf
| LogNegInf
| Ln (x : float64).

(** [np.log] on one float64 cell. *)
Definition log (x : float64) : logfloat :=
  match x with
  | S754_nan => LogNaN
  | S754_infinity false => LogPosInf
  | S754_infinity true => LogNaN
  | S754_zero _ => LogNegInf
  | S754_finite true _ _ => LogNaN
  | S754_finite false _ _ => Ln x
  end.

(** [pd.isna] on the two kinds of cell: only NaN is a missing value. *)
Definition isna (x : float64) : bool :=
  match x with S754_nan => true | _ => false end.

Definition log_isna (x : logfloat) : bool :=
  match x with LogNaN => true | _ => false end.

(** ** Columns *)

Inductive dtype : Type :=
| dtype_float64
| dtype_int64
| dtype_uint64
| dtype_object.

Definition INT64_MIN : Z := - 2 ^ 63.
Definition INT64_MAX : Z := 2 ^ 63 - 1.
Definition UINT64_MAX : Z := 2 ^ 64 - 1.

(** The scan by which pandas types a list of numbers
    ([lib.maybe_convert_objects]).  Each integer is first converted to
    float64, which raises when it is too large; the scan stops at the first
    integer that is beyond 64 bits or that brings together a negative integer
    and one above the [int64] range. *)
Fixpoint maybe_convert_objects (uint_ sint_ float_ : bool) (l : list number)
    : outcome dtype :=
  match l with
  | [] =>
      Return (if float_ then dtype_float64
              else if uint_ then dtype_uint64 else dtype_int64)
  | PyFloat _ _ _ :: rest => maybe_convert_objects uint_ sint_ true rest
  | PyInt z :: rest =>
      match float_of_int z with
      | S754_infinity _ => Raise OverflowError
      | _ =>
          let sint' := sint_ || ((INT64_MIN <=? z) && (z <? 0))%Z in
          let uint' := uint_ || ((INT64_MAX <? z) && (z <=? UINT64_MAX))%Z in
          if (uint' && sint') || (UINT64_MAX <? z)%Z || (z <? INT64_MIN)%Z
          then Return dtype_object
          else maybe_convert_objects uint' sint' float_ rest
      end
  end.

(** The column the frame constructor makes of a list: its type and its
    cells.  In a [float64] column the integers have become floats; an empty
    list makes an empty [float64] column. *)
Definition sanitize_array (l : list number) : outcome (dtype * list value) :=
  match l with
  | [] => Return (dtype_float64, [])
  | _ =>
      let* dt := maybe_convert_objects false false false l in
      Return (dt, match dt with
                  | dtype_float64 =>
                      map (fun x => VFloat (to_float (decode x))) l
                  | _ => map decode l
                  end)
  end.

(** [float(v)] on a Python object. *)
Definition py_float (v : value) : outcome float64 :=
  match v with
  | VFloat x => Return x
  | VInt z =>
      match float_of_int z with
      | S754_infinity _ => Raise OverflowError
      | x => Return x
      end
  end.

(** A Python [int] as an unrounded binary number. *)
Definition exact_int (z : Z) : float64 :=
  match z with
  | Z0 => S754_zero false
  | Zpos p => S754_finite false p 0
  | Zneg p => S754_finite true p 0
  end.

Definition py_is_zero (x : float64) : bool :=
  match x with S754_zero _ => true | _ => false end.

(** [a / b] on two Python objects: the quotient of two [int]s is the float
    nearest to the exact quotient; otherwise both operands are converted to
    [float] first.  Dividing by zero raises. *)
Definition py_truediv (a b : value) : outcome float64 :=
  match a, b with
  | VInt x, VInt y =>
      if (y =? 0)%Z then Raise ZeroDivisionError
      else match float_div (exact_int x) (exact_int y) with
           | S754_infinity _ => Raise OverflowError
           | q => Return q
           end
  | _, _ =>
      let* x := py_float a in
      let* y := py_float b in
      if py_is_zero y then Raise ZeroDivisionError
      else Return (float_div x y)
  end.

(** ** pandas Series operations used by the module *)

(** [s.shift(1)] *)
Definition shift (s : list float64) : list float64 :=
  firstn (List.length s) (S754_nan :: s).

(** [a / b] on two Series over the same index. *)
Definition series_div (a b : list float64) : list float64 :=
  map (fun p => float_div (fst p) (snd p)) (combine a b).

(** [s.pct_change()], that is [s / s.shift(1) - 1]. *)
Definition pct_change (s : list float64) : list float64 :=
  map (fun x => float_sub x one) (series_div s (shift s)).

(** [np.log(s)] on a [float64] Series. *)
Definition np_log (s : list float64) : list logfloat :=
  map log s.

(** [s.shift(1)] on a Series of Python objects: the first cell is the float
    NaN. *)
Definition object_shift (s : list value) : list value :=
  firstn (List.length s) (VFloat S754_nan :: s).

(** [a / b] on two Series of Python objects: cell by cell, in order, the
    first exception leaving the operation. *)
Fixpoint object_div (a b : list value) : outcome (list float64) :=
  match a, b with
  | x :: a', y :: b' =>
      let* q := py_truediv x y in
      let* qs := object_div a' b' in
      Return (q :: qs)
  | _, _ => Return []
  end.

(** ** Dictionaries

    A Python [dict] keeps its keys in insertion order; assigning to a key that
    is present replaces the value where it stands. *)

Definition dict (V : Type) : Type := list (string * V).

Fixpoint dict_get {V : Type} (k : string) (d : dict V) : option V :=
  match d with
  | [] => None
  | (k', v) :: d' => if String.eqb k' k then Some v else dict_get k d'
  end.

Fixpoint dict_set {V : Type} (k : string) (v : V) (d : dict V) : dict V :=
  match d with
  | [] => [(k, v)]
  | (k', v') :: d' =>
      if String.eqb k' k then (k, v) :: d' else (k', v') :: dict_set k v d'
  end.

Definition keys {V : Type} (d : dict V) : list string := map fst d.
Definition values {V : Type} (d : dict V) : list V := map snd d.

(** ** Data frames *)

(** A pandas [Timestamp]: nanoseconds since the epoch. *)
Definition Timestamp : Type := Z.

(** The frame the collector builds, column by column.  [columns] lists the
    column labels; a column that is not listed is empty.  [pd.DataFrame()] has
    no column and no row. *)
Record DataFrame : Type := mkDataFrame {
  columns : list string;
  index : list Timestamp;
  price : list value;
  market_cap : list value;
  volume : list value;
  returns : list float64;
  log_returns : list logfloat;
  symbol : list string
}.

Definition pd_DataFrame : DataFrame :=
  mkDataFrame [] [] [] [] [] [] [] [].

(** [len(df)] *)
Definition len (df : DataFrame) : nat := List.length (index df).

(** [df.empty]: some axis has length zero. *)
Definition empty (df : DataFrame) : bool :=
  match columns df, index df with
  | [], _ => true
  | _, [] => true
  | _, _ => false
  end.

(** [df['symbol'] = s]: the column is added if absent and holds [s] on every
    row. *)
Definition set_symbol (df : DataFrame) (s : string) : DataFrame :=
  mkDataFrame
    (if existsb (String.eqb "symbol") (columns df)
     then columns df else columns df ++ ["symbol"%string])
    (index df) (price df) (market_cap df) (volume df)
    (returns df) (log_returns df) (repeat s (len df)).

(** ** Requests, responses and the environment *)

Inductive param : Type :=
| PStr (s : string)
| PInt (n : Z).

Record request : Type := mkRequest {
  url : string;
  params : list (string * param)
}.

(** A received response: whether the status is 2xx, and the decoded JSON body
    ([None] when the body is empty or is not JSON). *)
Record response (P : Type) : Type := mkResponse {
  status_ok : bool;
  body : option P
}.

Arguments mkResponse {P} status_ok body.
Arguments status_ok {P} r.
Arguments body {P} r.

(** What [session.get] meets: no response at all (connection error, timeout)
    or a response. *)
Inductive transport (P : Type) : Type :=
| ConnectionError
| Delivered (r : response P).

Arguments ConnectionError {P}.
Arguments Delivered {P} r.

(** [{"prices": [[ts, v], ...], "market_caps": [...], "total_volumes": [...]}] *)
Definition chart_payload : Type := dict (list (list number)).

(** [{"bitcoin": {"usd": ..., "usd_market_cap": ...}, ...}] *)
Definition quote_payload : Type := dict (dict number).

(** A decoded body of the quote endpoint: [null], an array of [size] values
    or an object of quotes. *)
Inductive quote_body : Type :=
| JsonNull
| JsonArray (size : nat)
| Quotes (data : quote_payload).

(** [datetime.now()], to the second. *)
Record datetime : Type := mkDatetime {
  year : N;
  month : N;
  day : N;
  hour : N;
  minute : N;
  second : N
}.

(** Everything the collector does not control.  [to_datetime] is
    [pd.to_datetime(_, unit='ms')] on one cell, [None] when pandas refuses the
    value (out of the representable range). *)
Record environment : Type := mkEnvironment {
  chart_api : request -> transport chart_payload;
  price_api : request -> transport quote_body;
  to_datetime : number -> option Timestamp;
  now : nat -> datetime;
  can_write : string -> bool
}.

(** What a CSV file holds: one frame, or the frames stacked under their keys. *)
Inductive file_content : Type :=
| Csv (df : DataFrame)
| CsvCombined (parts : list (string * DataFrame)).

(** Console lines, by kind. *)
Inductive message : Type :=
| MsgFetching (symbol crypto_id : string)
| MsgFetched (crypto_id : string) (days : nat)
| MsgFetchError (crypto_id : string)
| MsgSaved (filepath : string)
| MsgCombinedSaved (filepath : string)
| MsgPricesError
| MsgStart
| MsgPeriod (days : Z)
| MsgAssets (symbols : list string)
| MsgCollected (n : nat)
| MsgSymbol (symbol : string)
| MsgLastPrice (p : value)
| MsgVariation30 (last before : value)
| MsgVolatility (symbol : string)
| MsgDone
| MsgNothingCollected.

(** The trace of one run: requests sent, seconds slept, lines printed, clock
    readings taken and files written, each in order of occurrence. *)
Record world : Type := mkWorld {
  sent : list request;
  slept : nat;
  stdout : list message;
  clock_reads : nat;
  files : list (string * file_content)
}.

Definition initial_world : world := mkWorld [] 0 [] 0 [].

(** ** The monad of the collector: state and exceptions *)

Definition M (A : Type) : Type := world -> outcome A * world.

Definition ret {A : Type} (a : A) : M A := fun w => (Return a, w).

Definition raise {A : Type} (e : exn) : M A := fun w => (Raise e, w).

Definition lift {A : Type} (o : outcome A) : M A := fun w => (o, w).

Definition bind {A B : Type} (m : M A) (f : A -> M B) : M B :=
  fun w =>
    match m w with
    | (Return a, w') => f a w'
    | (Raise e, w') => (Raise e, w')
    end.

(** [try: body except ...: handler] *)
Definition try_except {A : Type} (body : M A) (handler : exn -> M A) : M A :=
  fun w =>
    match body w with
    | (Return a, w') => (Return a, w')
    | (Raise e, w') => handler e w'
    end.

Notation "x <- m ;; k" := (bind m (fun x => k))
  (at level 61, m at next level, right associativity).
Notation "m ;;; k" := (bind m (fun _ => k))
  (at level 61, right associativity).

Definition print (m : message) : M unit :=
  fun w => (Return tt,
            mkWorld (sent w) (slept w) (stdout w ++ [m]) (clock_reads w) (files w)).

(** [time.sleep(n)] *)
Definition sleep (n : nat) : M unit :=
  fun w => (Return tt,
            mkWorld (sent w) (slept w + n) (stdout w) (clock_reads w) (files w)).

(** [self.session.get(url, params=params)] *)
Definition session_get {P : Type} (api : request -> transport P)
    (u : string) (ps : list (string * param)) : M (response P) :=
  fun w =>
    let r := mkRequest u ps in
    let w' := mkWorld (sent w ++ [r]) (slept w) (stdout w) (clock_reads w) (files w) in
    match api r with
    | ConnectionError => (Raise RequestException, w')
    | Delivered resp => (Return resp, w')
    end.

(** [response.raise_for_status()] *)
Definition raise_for_status {P : Type} (r : response P) : M unit :=
  if status_ok r then ret tt else raise RequestException.

(** [response.json()] *)
Definition response_json {P : Type} (r : response P) : M P :=
  match body r with
  | Some data => ret data
  | None => raise RequestException
  end.

(** [datetime.now()] *)
Definition datetime_now (E : environment) : M datetime :=
  fun w => (Return (now E (clock_reads w)),
            mkWorld (sent w) (slept w) (stdout w) (S (clock_reads w)) (files w)).

(** [df.to_csv(filepath)] *)
Definition to_csv (E : environment) (c : file_content) (filepath : string) : M unit :=
  fun w =>
    if can_write E filepath
    then (Return tt,
          mkWorld (sent w) (slept w) (stdout w) (clock_reads w)
                  (files w ++ [(filepath, c)]))
    else (Raise OSError, w).

(** ** config/config.py *)

Definition COINGECKO_BASE_URL : string := "https://api.coingecko.com/api/v3".

Definition CRYPTOCURRENCIES : dict string :=
  [("bitcoin", "BTC"); ("ethereum", "ETH"); ("cardano", "ADA");
   ("polkadot", "DOT"); ("solana", "SOL"); ("chainlink", "LINK")]%string.

Definition DEFAULT_DAYS : Z := 365.

Definition startswith_sep (s : string) : bool :=
  match s with
  | String c _ => Ascii.eqb c "/"
  | EmptyString => false
  end.

Fixpoint endswith_sep (s : string) : bool :=
  match s with
  | EmptyString => false
  | String c EmptyString => Ascii.eqb c "/"
  | String _ s' => endswith_sep s'
  end.

(** [os.path.join(a, b)] of [posixpath]. *)
Definition os_path_join (a b : string) : string :=
  if startswith_sep b then b
  else if (String.length a =? 0) || endswith_sep a then (a ++ b)%string
  else (a ++ "/" ++ b)%string.

Definition DATA_DIR : string := "data".
Definition RAW_DATA_DIR : string := os_path_join DATA_DIR "raw".

(** ** get_historical_data *)

(** [d[k]] *)
Definition getitem {V : Type} (d : dict V) (k : string) : outcome V :=
  match dict_get k d with
  | Some v => Return v
  | None => Raise KeyError
  end.

(** [[item[i] for item in items]] *)
Fixpoint items_at (i : nat) (items : list (list number))
    : outcome (list number) :=
  match items with
  | [] => Return []
  | item :: rest =>
      match nth_error item i with
      | None => Raise IndexError
      | Some x => let* xs := items_at i rest in Return (x :: xs)
      end
  end.

(** [pd.to_datetime(column, unit='ms')] *)
Fixpoint to_datetime_column (E : environment) (ts : list number)
    : outcome (list Timestamp) :=
  match ts with
  | [] => Return []
  | t :: rest =>
      match to_datetime E t with
      | None => Raise ValueError
      | Some d => let* ds := to_datetime_column E rest in Return (d :: ds)
      end
  end.

(** Lines 55 to 69: the frame built from the decoded payload.  The
    constructor [pd.DataFrame] refuses columns of different lengths, then
    types each column.  On a price column of Python objects line 68 divides
    as Python does and line 69 ends in the [TypeError] of [np.log]. *)
Definition chart_frame (E : environment) (data : chart_payload)
    : outcome DataFrame :=
  let* prices0 := getitem data "prices" in
  let* timestamp := items_at 0 prices0 in
  let* prices1 := getitem data "prices" in
  let* price_l := items_at 1 prices1 in
  let* caps := getitem data "market_caps" in
  let* cap_l := items_at 1 caps in
  let* vols := getitem data "total_volumes" in
  let* vol_l := items_at 1 vols in
  if negb ((List.length cap_l =? List.length price_l)
           && (List.length vol_l =? List.length price_l))
  then Raise ValueError
  else
    let* timestamp_c := sanitize_array timestamp in
    let* price_c := sanitize_array price_l in
    let* cap_c := sanitize_array cap_l in
    let* vol_c := sanitize_array vol_l in
    let* date := to_datetime_column E timestamp in
    match fst price_c with
    | dtype_object =>
        let* ratio := object_div (snd price_c) (object_shift (snd price_c)) in
        Raise TypeError
    | _ =>
        let price_f := map to_float (snd price_c) in
        Return (mkDataFrame
                  ["price"; "market_cap"; "volume"; "returns"; "log_returns"]
                  %string
                  date (snd price_c) (snd cap_c) (snd vol_c)
                  (pct_change price_f)
                  (np_log (series_div price_f (shift price_f)))
                  [])
    end.

Definition chart_request (crypto_id vs_currency : string) (days : Z) : request :=
  mkRequest (COINGECKO_BASE_URL ++ "/coins/" ++ crypto_id ++ "/market_chart")%string
            [("vs_currency", PStr vs_currency); ("days", PInt days);
             ("interval", PStr "daily")]%string.

Definition get_historical_data (E : environment)
    (crypto_id vs_currency : string) (days : Z) : M DataFrame :=
  let rq := chart_request crypto_id vs_currency days in
  try_except
    (response <- session_get (chart_api E) (url rq) (params rq) ;;
     raise_for_status response ;;;
     data <- response_json response ;;
     df <- lift (chart_frame E data) ;;
     print (MsgFetched crypto_id (len df)) ;;;
     ret df)
    (fun e =>
       match e with
       | RequestException =>
           print (MsgFetchError crypto_id) ;;; ret pd_DataFrame
       | _ => raise e
       end).

(** ** get_multiple_cryptos *)

(** The [for] loop of lines 92 to 101 over the remaining items, [results]
    being the dictionary built so far. *)
Fixpoint get_multiple_cryptos_loop (E : environment)
    (items : list (string * string)) (days : Z) (results : dict DataFrame)
    : M (dict DataFrame) :=
  match items with
  | [] => ret results
  | (crypto_id, sym) :: rest =>
      print (MsgFetching sym crypto_id) ;;;
      df <- get_historical_data E crypto_id "usd" days ;;
      let results' :=
        if negb (empty df) then dict_set sym (set_symbol df sym) results
        else results in
      sleep 1 ;;;
      get_multiple_cryptos_loop E rest days results'
  end.

Definition get_multiple_cryptos (E : environment)
    (crypto_dict : dict string) (days : Z) : M (dict DataFrame) :=
  get_multiple_cryptos_loop E crypto_dict days [].

(** ** save_data *)

Definition digit (n : N) : ascii := ascii_of_N (48 + n mod 10).

(** [n] in decimal on [width] digits, zero padded. *)
Fixpoint zero_padded (width : nat) (n : N) : string :=
  match width with
  | 0 => EmptyString
  | S w => (zero_padded w (n / 10)%N ++ String (digit n) EmptyString)%string
  end.

(** The fields are those of a Python [datetime] with a four-digit year. *)
Definition valid_datetime (d : datetime) : bool :=
  ((1000 <=? year d) && (year d <=? 9999)
   && (1 <=? month d) && (month d <=? 12)
   && (1 <=? day d) && (day d <=? 31)
   && (hour d <=? 23) && (minute d <=? 59) && (second d <=? 59))%N.

(** [d.strftime("%Y%m%d_%H%M%S")] *)
Definition strftime (d : datetime) : string :=
  (zero_padded 4 (year d) ++ zero_padded 2 (month d) ++ zero_padded 2 (day d)
   ++ "_" ++ zero_padded 2 (hour d) ++ zero_padded 2 (minute d)
   ++ zero_padded 2 (second d))%string.

Definition asset_filename (filename_prefix sym timestamp : string) : string :=
  (filename_prefix ++ "_" ++ sym ++ "_" ++ timestamp ++ ".csv")%string.

Definition combined_filename (filename_prefix timestamp : string) : string :=
  (filename_prefix ++ "_combined_" ++ timestamp ++ ".csv")%string.

(** The [for] loop of lines 116 to 120. *)
Fixpoint save_data_loop (E : environment) (filename_prefix timestamp : string)
    (items : list (string * DataFrame)) : M unit :=
  match items with
  | [] => ret tt
  | (sym, df) :: rest =>
      let filename := asset_filename filename_prefix sym timestamp in
      let filepath := os_path_join RAW_DATA_DIR filename in
      to_csv E (Csv df) filepath ;;;
      print (MsgSaved filepath) ;;;
      save_data_loop E filename_prefix timestamp rest
  end.

(** [pd.concat(objs, keys=ks)] *)
Definition pd_concat (objs : list DataFrame) (ks : list string)
    : outcome (list (string * DataFrame)) :=
  match objs with
  | [] => Raise ValueError
  | _ => Return (combine ks objs)
  end.

Definition save_data (E : environment) (data_dict : dict DataFrame)
    (filename_prefix : string) : M unit :=
  d <- datetime_now E ;;
  let timestamp := strftime d in
  save_data_loop E filename_prefix timestamp data_dict ;;;
  combined_df <- lift (pd_concat (values data_dict) (keys data_dict)) ;;
  let filename := combined_filename filename_prefix timestamp in
  let combined_filepath := os_path_join RAW_DATA_DIR filename in
  to_csv E (CsvCombined combined_df) combined_filepath ;;;
  print (MsgCombinedSaved combined_filepath).

(** ** get_current_prices *)

(** A cell of the quote table: a label, the cell pandas makes of a number of
    the payload, or NaN where an asset lacks a field. *)
Inductive cell : Type :=
| CellText (s : string)
| CellNumber (x : number)
| CellNaN.

(** A table with a default index: the column labels and the rows, each row
    holding one cell per column.  [pd.DataFrame()] has no column and no
    row. *)
Record QuoteTable : Type := mkQuoteTable {
  table_columns : list string;
  table_rows : list (list cell)
}.

Definition pd_QuoteTable : QuoteTable := mkQuoteTable [] [].

(** A table under a labelled index, before [reset_index]. *)
Record IndexedTable : Type := mkIndexedTable {
  it_index : list string;
  it_columns : list string;
  it_cells : list (list cell)
}.

(** The elements of [l] that are not in [seen], each once, in the order in
    which they first appear. *)
Fixpoint unique_from (seen l : list string) : list string :=
  match l with
  | [] => []
  | x :: rest =>
      if existsb (String.eqb x) seen then unique_from seen rest
      else x :: unique_from (x :: seen) rest
  end.

Definition unique (l : list string) : list string := unique_from [] l.

(** The field names of the quotes, in the order in which they first
    appear: the columns of the table. *)
Definition quote_fields (data : quote_payload) : list string :=
  unique (flat_map (fun it => keys (snd it)) data).

(** The assets whose quote has the field [f], in the order of the payload. *)
Definition assets_with (f : string) (data : quote_payload) : list string :=
  map fst
    (filter (fun it => match dict_get f (snd it) with
                       | Some _ => true
                       | None => false
                       end) data).

(** The assets that have a field at all, in the order in which the columns
    mention them: the index of the table. *)
Definition quoted_assets (data : quote_payload) : list string :=
  unique (flat_map (fun f => assets_with f data) (quote_fields data)).

Definition quote_cell (data : quote_payload) (crypto_id f : string) : cell :=
  match dict_get crypto_id data with
  | Some quote =>
      match dict_get f quote with
      | Some q => CellNumber q
      | None => CellNaN
      end
  | None => CellNaN
  end.

(** [pd.DataFrame.from_dict(data, orient='index')] on an object of quotes:
    one column per field, one row per asset that has a field, NaN where an
    asset lacks a field. *)
Definition from_dict_index (data : quote_payload) : IndexedTable :=
  mkIndexedTable
    (quoted_assets data) (quote_fields data)
    (map (fun crypto_id => map (quote_cell data crypto_id) (quote_fields data))
         (quoted_assets data)).

(** [pd.DataFrame.from_dict(data, orient='index')]: [len(data)] is taken
    first, which [null] does not have; an empty array makes the frame without
    rows and columns, and of any other array [data.values()] is looked up,
    which an array does not have. *)
Definition from_dict (data : quote_body) : outcome IndexedTable :=
  match data with
  | JsonNull => Raise TypeError
  | JsonArray 0 => Return (mkIndexedTable [] [] [])
  | JsonArray (S _) => Raise AttributeError
  | Quotes quotes => Return (from_dict_index quotes)
  end.

(** [df.index.name = name; df.reset_index(inplace=True)]: the index becomes
    the first column, which no other column may be named like. *)
Definition reset_index (name : string) (t : IndexedTable) : outcome QuoteTable :=
  if existsb (String.eqb name) (it_columns t) then Raise ValueError
  else Return (mkQuoteTable
                 (name :: it_columns t)
                 (map (fun row => CellText (fst row) :: snd row)
                      (combine (it_index t) (it_cells t)))).

Definition prices_request (crypto_ids : list string) : request :=
  let ids_string := String.concat "," crypto_ids in
  mkRequest (COINGECKO_BASE_URL ++ "/simple/price")%string
            [("ids", PStr ids_string); ("vs_currencies", PStr "usd");
             ("include_market_cap", PStr "true");
             ("include_24hr_vol", PStr "true");
             ("include_24hr_change", PStr "true")]%string.

Definition get_current_prices (E : environment) (crypto_ids : list string)
    : M QuoteTable :=
  let rq := prices_request crypto_ids in
  try_except
    (response <- session_get (price_api E) (url rq) (params rq) ;;
     raise_for_status response ;;;
     data <- response_json response ;;
     lift (let* df := from_dict data in reset_index "crypto_id" df))
    (fun e =>
       match e with
       | RequestException => print MsgPricesError ;;; ret pd_QuoteTable
       | _ => raise e
       end).

(** ** main *)

(** [s.iloc[-k]] for [k >= 1] *)
Definition iloc_neg {A : Type} (s : list A) (k : nat) : outcome A :=
  if k <=? List.length s
  then match nth_error s (List.length s - k) with
       | Some x => Return x
       | None => Raise IndexError
       end
  else Raise IndexError.

(** The preview loop of lines 181 to 185. *)
Fixpoint preview (items : list (string * DataFrame)) : M unit :=
  match items with
  | [] => ret tt
  | (sym, df) :: rest =>
      print (MsgSymbol sym) ;;;
      last <- lift (iloc_neg (price df) 1) ;;
      print (MsgLastPrice last) ;;;
      last' <- lift (iloc_neg (price df) 1) ;;
      before <- lift (iloc_neg (price df) 30) ;;
      print (MsgVariation30 last' before) ;;;
      print (MsgVolatility sym) ;;;
      preview rest
  end.

Definition main (E : environment) : M unit :=
  print MsgStart ;;;
  print (MsgPeriod DEFAULT_DAYS) ;;;
  print (MsgAssets (values CRYPTOCURRENCIES)) ;;;
  data <- get_multiple_cryptos E CRYPTOCURRENCIES DEFAULT_DAYS ;;
  match data with
  | _ :: _ =>
      print (MsgCollected (List.length data)) ;;;
      preview data ;;;
      save_data E data "crypto_data" ;;;
      print MsgDone
  | [] => print MsgNothingCollected
  end.

(** ** Notions used to state the properties *)

(** The float is not NaN and has the sign [s]. *)
Definition signed (s : bool) (x : float64) : Prop :=
  match x with
  | S754_zero s' | S754_infinity s' | S754_finite s' _ _ => s' = s
  | S754_nan => False
  end.

(** The float is below zero: finite and not zero, or infinite, of negative
    sign. *)
Definition negative (x : float64) : bool :=
  match x with
  | S754_finite true _ _ | S754_infinity true => true
  | _ => false
  end.

(** The float is zero or below zero. *)
Definition non_positive (x : float64) : bool :=
  match x with
  | S754_zero _ => true
  | _ => negative x
  end.

(** The request did not yield a decoded payload: no response, a status that
    is not 2xx, or a body that is empty or is not JSON. *)
Definition transport_failed {P : Type} (t : transport P) : bool :=
  match t with
  | ConnectionError => true
  | Delivered r =>
      negb (status_ok r)
      || match body r with None => true | Some _ => false end
  end.

(** The decoded payload lacks one of the three arrays. *)
Definition lacks_array (data : chart_payload) : bool :=
  match dict_get "prices" data, dict_get "market_caps" data,
        dict_get "total_volumes" data with
  | Some _, Some _, Some _ => false
  | _, _, _ => true
  end.

Definition column_at (i : nat) (items : list (list number)) : list number :=
  map (fun item => nth i item (PyInt 0)) items.

(** Every item holds the two entries of a [timestamp, value] pair. *)
Definition pairs (items : list (list number)) : bool :=
  forallb (fun item => 2 <=? List.length item) items.

Definition convertible (E : environment) (item : list number) : bool :=
  match to_datetime E (nth 0 item (PyInt 0)) with
  | Some _ => true
  | None => false
  end.

(** The number is not an integer too large for a float64 (2^1024 and
    beyond). *)
Definition finite_number (x : number) : bool :=
  match x with
  | PyInt z =>
      match float_of_int z with
      | S754_infinity _ => false
      | _ => true
      end
  | PyFloat _ _ _ => true
  end.

Definition finite_numbers (items : list (list number)) : bool :=
  forallb (forallb finite_number) items.

(** The price of the item is a positive real: as a float64 it is finite, not
    zero and of positive sign, and when it is written as an integer it is
    within the [int64] range. *)
Definition positive_price (item : list number) : bool :=
  let x := nth 1 item (PyInt 0) in
  match to_float (decode x) with
  | S754_finite false _ _ =>
      match x with
      | PyInt z => (z <=? INT64_MAX)%Z
      | PyFloat _ _ _ => true
      end
  | _ => false
  end.

(** A valid chart payload of [N] records: the three arrays are present, hold
    [N] pairs each of numbers a float64 can hold, the timestamps are ones
    pandas converts and the prices are positive reals. *)
Definition valid_chart (E : environment) (data : chart_payload) (N : nat)
    : bool :=
  match dict_get "prices" data, dict_get "market_caps" data,
        dict_get "total_volumes" data with
  | Some ps, Some cs, Some vs =>
      (List.length ps =? N) && (List.length cs =? N) && (List.length vs =? N)
      && pairs ps && pairs cs && pairs vs
      && finite_numbers ps && finite_numbers cs && finite_numbers vs
      && forallb (convertible E) ps && forallb positive_price ps
  | _, _, _ => false
  end.

(** What [get_historical_data] hands back for a request, as a function of the
    response alone. *)
Definition fetch_outcome (E : environment) (crypto_id vs_currency : string)
    (days : Z) : outcome DataFrame :=
  match chart_api E (chart_request crypto_id vs_currency days) with
  | ConnectionError => Return pd_DataFrame
  | Delivered r =>
      if status_ok r
      then match body r with
           | Some data => chart_frame E data
           | None => Return pd_DataFrame
           end
      else Return pd_DataFrame
  end.

(** The result of the orchestrator's call for one asset. *)
Definition fetch (E : environment) (crypto_id : string) (days : Z)
    : outcome DataFrame :=
  fst (get_historical_data E crypto_id "usd" days initial_world).

(** The fetch failed: it came back with an empty series. *)
Definition fetch_failed (E : environment) (crypto_id : string) (days : Z)
    : Prop :=
  exists df, fetch E crypto_id days = Return df /\ empty df = true.

(** The fetch succeeded: it came back with a series that is not empty. *)
Definition fetch_succeeded (E : environment) (crypto_id : string) (days : Z)
    : Prop :=
  exists df, fetch E crypto_id days = Return df /\ empty df = false.

(** Lines 96 to 98: what one fetched frame does to the dictionary. *)
Definition loop_update (sym : string) (df : DataFrame)
    (results : dict DataFrame) : dict DataFrame :=
  if negb (empty df) then dict_set sym (set_symbol df sym) results
  else results.

(** The outcome of the loop of [get_multiple_cryptos], without its trace. *)
Fixpoint collected (E : environment) (items : list (string * string))
    (days : Z) (results : dict DataFrame) : outcome (dict DataFrame) :=
  match items with
  | [] => Return results
  | (crypto_id, sym) :: rest =>
      let* df := fetch_outcome E crypto_id "usd" days in
      collected E rest days (loop_update sym df results)
  end.

(** The files one call of [save_data] writes under the timestamp [ts]. *)
Definition saved_files (data_dict : dict DataFrame)
    (filename_prefix ts : string) : list (string * file_content) :=
  map (fun it =>
         (os_path_join RAW_DATA_DIR (asset_filename filename_prefix (fst it) ts),
          Csv (snd it)))
      data_dict
  ++ [(os_path_join RAW_DATA_DIR (combined_filename filename_prefix ts),
       CsvCombined (combine (keys data_dict) (values data_dict)))].

(** ** Scenarios *)

(** An array of [timestamp, value] pairs of integer literals. *)
Definition array_of (items : list (list Z)) : list (list number) :=
  map (map PyInt) items.

Definition chart3 : chart_payload :=
  [("prices", array_of [[1; 100]; [2; 110]; [3; 99]]);
   ("market_caps", array_of [[1; 5]; [2; 6]; [3; 7]]);
   ("total_volumes", array_of [[1; 8]; [2; 9]; [3; 10]])]%string%Z.

(** Prices that fall from -1 to -2. *)
Definition chart_negative : chart_payload :=
  [("prices", array_of [[1; -1]; [2; -2]]);
   ("market_caps", array_of [[1; 5]; [2; 6]]);
   ("total_volumes", array_of [[1; 8]; [2; 9]])]%string%Z.

Definition quotes2 : quote_payload :=
  [("bitcoin", [("usd", PyInt 100)]); ("ethereum", [("usd", PyInt 10)])]
  %string.

(** A converter of whole milliseconds to nanoseconds that refuses every
    other number. *)
Definition ms_to_ns (x : number) : option Timestamp :=
  match x with
  | PyInt z => Some (z * 1000000)%Z
  | PyFloat _ _ _ => None
  end.

(** One reading per day from 2 January 2024, 03:04:05. *)
Definition daily_clock (n : nat) : datetime :=
  mkDatetime 2024 1 (2 + N.of_nat n) 3 4 5.

Definition env_of (charts : request -> transport chart_payload)
    (quotes : request -> transport quote_body) : environment :=
  mkEnvironment charts quotes ms_to_ns daily_clock (fun _ => true).

(** Every request is answered with [chart3]. *)
Definition env_ok : environment :=
  env_of (fun _ => Delivered (mkResponse true (Some chart3)))
         (fun _ => Delivered (mkResponse true (Some (Quotes quotes2)))).

(** The [bitcoin] chart cannot be reached, every other chart is [chart3]; the
    quote endpoint answers with a body that is not JSON. *)
Definition env_bitcoin_down : environment :=
  env_of (fun r =>
            if String.eqb (url r) (url (chart_request "bitcoin" "usd" 3))
            then ConnectionError
            else Delivered (mkResponse true (Some chart3)))
         (fun _ => Delivered (mkResponse true None)).

(** No request gets a response. *)
Definition env_offline : environment :=
  env_of (fun _ => ConnectionError) (fun _ => ConnectionError).

(** Every chart request is answered 200 with the JSON object [{}]. *)
Definition env_empty_object : environment :=
  env_of (fun _ => Delivered (mkResponse true (Some [])))
         (fun _ => Delivered (mkResponse true (Some (Quotes [])))).

Definition env_negative : environment :=
  env_of (fun _ => Delivered (mkResponse true (Some chart_negative)))
         (fun _ => ConnectionError).

(** The asset map of the two-asset scenarios, and one run over it with the
    [bitcoin] chart out of reach. *)
Definition scenario_map : dict string :=
  [("bitcoin", "BTC"); ("ethereum", "ETH")]%string.

Definition scenario_run : outcome (dict DataFrame) * world :=
  get_multiple_cryptos env_bitcoin_down scenario_map 3 initial_world.

Definition scenario_results : dict DataFrame :=
  match fst scenario_run with
  | Return results => results
  | Raise _ => []
  end.

Definition eth_frame : DataFrame :=
  match dict_get "ETH" scenario_results with
  | Some df => df
  | None => pd_DataFrame
  end.

(** The frame [get_historical_data] builds from [chart3]. *)
Definition frame3 : DataFrame :=
  match fetch env_ok "ethereum" 3 with
  | Return df => df
  | Raise _ => pd_DataFrame
  end.

(** Two entries under one ticker. *)
Definition shared_ticker_map : dict string :=
  [("bitcoin", "X"); ("ethereum", "X")]%string.

(** A world in which the clock has been read once. *)
Definition later_world : world := mkWorld [] 0 [] 1 [].

(** ** Further notions and scenarios *)

(** The price of the item is a float, or an integer within the [int64]
    range. *)
Definition int64_price (item : list number) : bool :=
  match nth 1 item (PyInt 0) with
  | PyInt z => ((INT64_MIN <=? z) && (z <=? INT64_MAX))%Z
  | PyFloat _ _ _ => true
  end.

(** The three arrays are present and hold [N] pairs each of numbers a float64
    can hold, pandas converts the timestamps of the prices, and the prices
    that are integers are within the [int64] range; nothing else is asked of
    the values. *)
Definition aligned_chart (E : environment) (data : chart_payload) (N : nat)
    : bool :=
  match dict_get "prices" data, dict_get "market_caps" data,
        dict_get "total_volumes" data with
  | Some ps, Some cs, Some vs =>
      (List.length ps =? N) && (List.length cs =? N) && (List.length vs =? N)
      && pairs ps && pairs cs && pairs vs
      && finite_numbers ps && finite_numbers cs && finite_numbers vs
      && forallb (convertible E) ps && forallb int64_price ps
  | _, _, _ => false
  end.



(** The fetch of an entry of the asset map came back with a series that is
    not empty. *)
Definition succeeded_b (E : environment) (days : Z) (it : string * string)
    : bool :=
  match fetch E (fst it) days with
  | Return df => negb (empty df)
  | Raise _ => false
  end.

(** The paths [save_data] writes to. *)
Definition asset_path (filename_prefix ts sym : string) : string :=
  os_path_join RAW_DATA_DIR (asset_filename filename_prefix sym ts).

Definition combined_path (filename_prefix ts : string) : string :=
  os_path_join RAW_DATA_DIR (combined_filename filename_prefix ts).

Definition scenario3_map : dict string :=
  [("bitcoin", "BTC"); ("ethereum", "ETH"); ("cardano", "ADA")]%string.

(** The [ethereum] chart is answered 200 with [{}], every other with
    [chart3]. *)
Definition env_ethereum_malformed : environment :=
  env_of (fun r =>
            if String.eqb (url r) (url (chart_request "ethereum" "usd" 3))
            then Delivered (mkResponse true (Some []))
            else Delivered (mkResponse true (Some chart3)))
         (fun _ => ConnectionError).

(** Two prices for one market cap. *)
Definition chart_misaligned : chart_payload :=
  [("prices", array_of [[1; 100]; [2; 110]]);
   ("market_caps", array_of [[1; 5]]);
   ("total_volumes", array_of [[1; 8]; [2; 9]])]%string%Z.

(** The second price item has lost its value. *)
Definition chart_short : chart_payload :=
  [("prices", array_of [[1; 100]; [2]]);
   ("market_caps", array_of [[1; 5]; [2; 6]]);
   ("total_volumes", array_of [[1; 8]; [2; 9]])]%string%Z.

(** The three arrays are there and empty. *)
Definition chart_no_record : chart_payload :=
  [("prices", []); ("market_caps", []); ("total_volumes", [])]%string.


(** Thirty daily records, the price rising from 101 to 130. *)
Definition chart30 : chart_payload :=
  let item (base : nat) (k : nat) : list number :=
    [PyInt (Z.of_nat k); PyInt (Z.of_nat (base + k))] in
  [("prices", map (item 100) (seq 1 30));
   ("market_caps", map (item 1000) (seq 1 30));
   ("total_volumes", map (item 10) (seq 1 30))]%string.

(** Prices 2^64 and 2^65, beyond 64 bits. *)
Definition chart_big_integers : chart_payload :=
  [("prices", array_of [[1; 2 ^ 64]; [2; 2 ^ 65]]);
   ("market_caps", array_of [[1; 5]; [2; 6]]);
   ("total_volumes", array_of [[1; 8]; [2; 9]])]%string%Z.

(** Prices 110.5 and 1e999, which is read as an infinity. *)
Definition chart_overflowing_literal : chart_payload :=
  [("prices", [[PyInt 1; PyFloat false 1105 (-1)];
               [PyInt 2; PyFloat false 1 999]]);
   ("market_caps", array_of [[1; 5]; [2; 6]]);
   ("total_volumes", array_of [[1; 8]; [2; 9]])]%string%Z.

(** The price falls from 2^60 to 1. *)
Definition chart_steep_fall : chart_payload :=
  [("prices", array_of [[1; 2 ^ 60]; [2; 1]]);
   ("market_caps", array_of [[1; 5]; [2; 6]]);
   ("total_volumes", array_of [[1; 8]; [2; 9]])]%string%Z.

(** The quote of [bitcoin] has a field named [crypto_id]. *)
Definition quotes_with_crypto_id : quote_payload :=
  [("bitcoin", [("usd", PyInt 100); ("crypto_id", PyInt 1)])]%string.

Definition env_with (data : chart_payload) : environment :=
  env_of (fun _ => Delivered (mkResponse true (Some data)))
         (fun _ => ConnectionError).

(** As [env_ok], but the file of ETH under the first timestamp of
    [daily_clock] cannot be opened. *)
Definition env_eth_readonly : environment :=
  mkEnvironment (chart_api env_ok) (price_api env_ok) ms_to_ns daily_clock
    (fun p => negb (String.eqb p
                      (asset_path "crypto_data" "20240102_030405" "ETH"))).

Definition two_frames : dict DataFrame :=
  [("BTC", frame3); ("ETH", frame3)]%string.

(** The frame built from a payload, and the collection of a run of the
    configured asset map. *)
Definition frame_of (data : chart_payload) : DataFrame :=
  match fetch (env_with data) "bitcoin" 3 with
  | Return df => df
  | Raise _ => pd_DataFrame
  end.


(** The quote endpoint answers 200 with [quotes_with_crypto_id]. *)
Definition env_quotes_with_crypto_id : environment :=
  env_of (fun _ => ConnectionError)
         (fun _ => Delivered (mkResponse true (Some (Quotes quotes_with_crypto_id)))).

Definition config_results (E : environment) : dict DataFrame :=
  match fst (get_multiple_cryptos E CRYPTOCURRENCIES DEFAULT_DAYS
               initial_world) with
  | Return results => results
  | Raise _ => []
  end.

(** ** Lists and series *)

Lemma nth_error_combine {A B : Type} (a : list A) (b : list B) (n : nat)
    (x : A) (y : B) :
  nth_error a n = Some x -> nth_error b n = Some y ->
  nth_error (combine a b) n = Some (x, y).
Proof.
  revert b n.
  induction a as [|a0 a IH]; intros [|b0 b] [|n]; simpl; try discriminate.
  - intros [= ->] [= ->]. reflexivity.
  - apply IH.
Qed.

Lemma length_shift (s : list float64) : List.length (shift s) = List.length s.
Proof.
  unfold shift. rewrite length_firstn. simpl. lia.
Qed.

Lemma nth_error_shift_S (s : list float64) (t : nat) (x y : float64) :
  nth_error s (S t) = Some x -> nth_error s t = Some y ->
  nth_error (shift s) (S t) = Some y.
Proof.
  intros Hx Hy. unfold shift. rewrite nth_error_firstn.
  assert (S t < List.length s) by (apply nth_error_Some; congruence).
  destruct (Nat.ltb_spec (S t) (List.length s)); [exact Hy | lia].
Qed.

Lemma nth_error_shift_0 (s : list float64) (x : float64) :
  nth_error s 0 = Some x -> nth_error (shift s) 0 = Some S754_nan.
Proof.
  destruct s; simpl; [discriminate | reflexivity].
Qed.

Lemma length_series_div_shift (s : list float64) :
  List.length (series_div s (shift s)) = List.length s.
Proof.
  unfold series_div. rewrite length_map, length_combine, length_shift. lia.
Qed.

Lemma length_pct_change (s : list float64) :
  List.length (pct_change s) = List.length s.
Proof.
  unfold pct_change. rewrite length_map. apply length_series_div_shift.
Qed.

Lemma ratio_first (s : list float64) (x : float64) :
  nth_error s 0 = Some x ->
  nth_error (series_div s (shift s)) 0 = Some S754_nan.
Proof.
  intros Hx. unfold series_div.
  rewrite nth_error_map,
    (nth_error_combine _ _ _ _ _ Hx (nth_error_shift_0 _ _ Hx)).
  cbn. unfold float_div. destruct x; reflexivity.
Qed.

Lemma ratio_later (s : list float64) (t : nat) (x y : float64) :
  nth_error s (S t) = Some x -> nth_error s t = Some y ->
  nth_error (series_div s (shift s)) (S t) = Some (float_div x y).
Proof.
  intros Hx Hy. unfold series_div.
  rewrite nth_error_map,
    (nth_error_combine _ _ _ _ _ Hx (nth_error_shift_S _ _ _ _ Hx Hy)).
  reflexivity.
Qed.

Lemma pct_change_first (s : list float64) (x : float64) :
  nth_error s 0 = Some x -> nth_error (pct_change s) 0 = Some S754_nan.
Proof.
  intros Hx. unfold pct_change.
  rewrite nth_error_map, (ratio_first _ _ Hx). reflexivity.
Qed.

Lemma pct_change_later (s : list float64) (t : nat) (x y : float64) :
  nth_error s (S t) = Some x -> nth_error s t = Some y ->
  nth_error (pct_change s) (S t) = Some (float_sub (float_div x y) one).
Proof.
  intros Hx Hy. unfold pct_change.
  rewrite nth_error_map, (ratio_later _ _ _ _ Hx Hy). reflexivity.
Qed.

Lemma log_ratio_first (s : list float64) (x : float64) :
  nth_error s 0 = Some x ->
  nth_error (np_log (series_div s (shift s))) 0 = Some LogNaN.
Proof.
  intros Hx. unfold np_log.
  rewrite nth_error_map, (ratio_first _ _ Hx). reflexivity.
Qed.

Lemma log_ratio_later (s : list float64) (t : nat) (x y : float64) :
  nth_error s (S t) = Some x -> nth_error s t = Some y ->
  nth_error (np_log (series_div s (shift s))) (S t) = Some (log (float_div x y)).
Proof.
  intros Hx Hy. unfold np_log.
  rewrite nth_error_map, (ratio_later _ _ _ _ Hx Hy). reflexivity.
Qed.

(** ** float64 arithmetic *)

Lemma one_eq : one = S754_finite false 4503599627370496 (-52).
Proof. reflexivity. Qed.

Lemma shr_1_nonneg (mrs : shr_record) :
  (0 <= shr_m mrs)%Z -> (0 <= shr_m (shr_1 mrs))%Z.
Proof.
  destruct mrs as [m r s]. cbn. destruct m as [|[p|p|]|p]; cbn; lia.
Qed.

Lemma iter_pos_invariant {A : Type} (P : A -> Prop) (f : A -> A) :
  (forall x, P x -> P (f x)) -> forall p x, P x -> P (iter_pos f p x).
Proof.
  intros Hf. induction p as [p IH|p IH|]; intros x Hx; cbn; auto.
Qed.

Lemma shr_nonneg (mrs : shr_record) (e n : Z) :
  (0 <= shr_m mrs)%Z -> (0 <= shr_m (fst (shr mrs e n)))%Z.
Proof.
  intros H. unfold shr. destruct n; cbn; try exact H.
  apply (iter_pos_invariant (fun r => (0 <= shr_m r)%Z));
    [apply shr_1_nonneg | exact H].
Qed.

Lemma shr_fexp_nonneg (prec emax m e : Z) (l : location) :
  (0 <= m)%Z -> (0 <= shr_m (fst (shr_fexp prec emax m e l)))%Z.
Proof.
  intros H. unfold shr_fexp. apply shr_nonneg.
  destruct l as [|[| |]]; exact H.
Qed.

Lemma round_nearest_even_nonneg (m : Z) (l : location) :
  (0 <= m)%Z -> (0 <= round_nearest_even m l)%Z.
Proof.
  intros H. unfold round_nearest_even.
  destruct l as [|[| |]]; try destruct (Z.even m); lia.
Qed.

(** Rounding a non-negative mantissa gives a zero, a finite float or an
    infinity of the sign asked for, never NaN. *)
Lemma binary_round_aux_signed (prec emax : Z) (sx : bool) (mx ex : Z)
    (lx : location) :
  (0 <= mx)%Z -> signed sx (binary_round_aux prec emax sx mx ex lx).
Proof.
  intros H. unfold binary_round_aux.
  pose proof (shr_fexp_nonneg prec emax mx ex lx H) as H1.
  destruct (shr_fexp prec emax mx ex lx) as [mrs' e']. cbn [fst] in H1.
  pose proof (shr_fexp_nonneg prec emax _ e' loc_Exact
                (round_nearest_even_nonneg _ (loc_of_shr_record mrs') H1))
    as H2.
  destruct (shr_fexp prec emax _ e' loc_Exact) as [mrs'' e''].
  cbn [fst] in H2.
  destruct (shr_m mrs'') as [|m|m]; cbn; try reflexivity; try lia.
  destruct (Z.leb e'' _); reflexivity.
Qed.

Lemma binary_round_signed (prec emax : Z) (sx : bool) (mx : positive)
    (ex : Z) :
  signed sx (binary_round prec emax sx mx ex).
Proof.
  unfold binary_round. destruct (shl_align mx ex _) as [mz ez].
  apply binary_round_aux_signed. lia.
Qed.

Lemma binary_normalize_not_nan (prec emax m e : Z) (szero : bool) :
  isna (binary_normalize prec emax m e szero) = false.
Proof.
  destruct m as [|m|m]; cbn [binary_normalize]; [reflexivity| |].
  - pose proof (binary_round_signed prec emax false m e) as H.
    destruct (binary_round prec emax false m e); [reflexivity.. | destruct H |
                                                   reflexivity].
  - pose proof (binary_round_signed prec emax true m e) as H.
    destruct (binary_round prec emax true m e); [reflexivity.. | destruct H |
                                                  reflexivity].
Qed.

(** The quotient of two finite floats that are not zero has the product of
    their signs; it may be a zero (underflow) or an infinity (overflow). *)
Lemma float_div_finite (sx sy : bool) (mx my : positive) (ex ey : Z) :
  signed (xorb sx sy)
    (float_div (S754_finite sx mx ex) (S754_finite sy my ey)).
Proof.
  unfold float_div, SFdiv.
  destruct (SFdiv_core_binary 53 1024 (Zpos mx) ex (Zpos my) ey)
    as [[mz ez] lz] eqn:Hcore.
  apply binary_round_aux_signed.
  unfold SFdiv_core_binary in Hcore.
  set (m' := match (ex - ey - _)%Z with
             | Z0 => _ | Zpos _ => _ | Zneg _ => _
             end) in Hcore.
  assert (Hm : (0 <= m')%Z).
  { subst m'. destruct (_ - _ - _)%Z; try lia. apply Z.shiftl_nonneg. lia. }
  pose proof (Z_div_mod m' (Zpos my) ltac:(lia)) as Hdm.
  destruct (Z.div_eucl m' (Zpos my)) as [q r].
  injection Hcore as <- _ _. nia.
Qed.

(** Subtracting [1.0] keeps a float that is not NaN from being NaN. *)
Lemma float_sub_one_not_nan (x : float64) :
  isna x = false -> isna (float_sub x one) = false.
Proof.
  intros H. rewrite one_eq. unfold float_sub.
  destruct x as [s|s| |s m e]; try discriminate; try reflexivity.
  cbn [SFsub]. apply binary_normalize_not_nan.
Qed.

Lemma signed_not_nan (s : bool) (x : float64) : signed s x -> isna x = false.
Proof.
  destruct x; cbn; [reflexivity.. | intros [] | reflexivity].
Qed.

(** The logarithm of a float of positive sign is defined; that of a negative
    float is not. *)
Lemma log_of_positive_sign (x : float64) :
  signed false x -> log_isna (log x) = false.
Proof.
  destruct x as [s|s| |s m e]; cbn; try intros ->; try reflexivity.
  intros [].
Qed.

(** ** The frame built from a payload *)

Lemma items_at_length (i : nat) (items : list (list number)) (xs : list number) :
  items_at i items = Return xs -> List.length xs = List.length items.
Proof.
  revert xs. induction items as [|item rest IH]; simpl; intros xs H.
  - injection H as <-. reflexivity.
  - destruct (nth_error item i); [|discriminate].
    destruct (items_at i rest) as [ys|e]; simpl in H; [|discriminate].
    injection H as <-. simpl. f_equal. apply IH. reflexivity.
Qed.

Lemma items_at_pairs (i : nat) (items : list (list number)) :
  i < 2 -> pairs items = true -> items_at i items = Return (column_at i items).
Proof.
  intros Hi. induction items as [|item rest IH]; intros H.
  - reflexivity.
  - unfold pairs in H. cbn [forallb] in H.
    apply andb_prop in H as [Hl Hr]. apply Nat.leb_le in Hl.
    cbn [items_at column_at map].
    destruct (nth_error item i) as [x|] eqn:Hx.
    + rewrite (IH Hr). simpl. f_equal. f_equal.
      symmetry. apply nth_error_nth. exact Hx.
    + apply nth_error_None in Hx. lia.
Qed.

Lemma length_column_at (i : nat) (items : list (list number)) :
  List.length (column_at i items) = List.length items.
Proof.
  unfold column_at. apply length_map.
Qed.

Lemma to_datetime_column_length (E : environment) (ts : list number)
    (ds : list Timestamp) :
  to_datetime_column E ts = Return ds -> List.length ds = List.length ts.
Proof.
  revert ds. induction ts as [|t rest IH]; simpl; intros ds H.
  - injection H as <-. reflexivity.
  - destruct (to_datetime E t); [|discriminate].
    destruct (to_datetime_column E rest) as [ys|e]; simpl in H; [|discriminate].
    injection H as <-. simpl. f_equal. apply IH. reflexivity.
Qed.

Lemma to_datetime_column_convertible (E : environment) (items : list (list number)) :
  forallb (convertible E) items = true ->
  exists ds, to_datetime_column E (column_at 0 items) = Return ds.
Proof.
  induction items as [|item rest IH]; simpl; intros H.
  - eexists. reflexivity.
  - apply andb_prop in H as [Hl Hr]. unfold convertible in Hl.
    destruct (to_datetime E (nth 0 item (PyInt 0))) as [d|]; [|discriminate].
    destruct (IH Hr) as [ds ->]. eexists. reflexivity.
Qed.

(** *** Typing a column *)

Lemma maybe_convert_objects_finite (l : list number) :
  forallb finite_number l = true ->
  forall uint_ sint_ float_,
    exists dt, maybe_convert_objects uint_ sint_ float_ l = Return dt.
Proof.
  induction l as [|[z|s m e] rest IH]; cbn [forallb maybe_convert_objects];
    intros H uint_ sint_ float_.
  - eexists. reflexivity.
  - apply andb_prop in H as [Hz Hrest]. unfold finite_number in Hz.
    destruct (float_of_int z); try discriminate;
      (destruct (_ || _ || _); [eexists; reflexivity | apply IH, Hrest]).
  - apply andb_prop in H as [_ Hrest]. apply IH, Hrest.
Qed.

(** A list whose integers are within the [int64] range is not kept as
    Python objects. *)
Lemma maybe_convert_objects_signed (l : list number) :
  forallb finite_number l = true ->
  (forall z, In (PyInt z) l -> (INT64_MIN <= z <= INT64_MAX)%Z) ->
  forall sint_ float_,
    exists dt,
      maybe_convert_objects false sint_ float_ l = Return dt
      /\ dt <> dtype_object.
Proof.
  induction l as [|[z|s m e] rest IH]; cbn [forallb maybe_convert_objects];
    intros H Hrange sint_ float_.
  - eexists. split; [reflexivity|]. destruct float_; discriminate.
  - apply andb_prop in H as [Hz Hrest]. unfold finite_number in Hz.
    assert (Hr : (INT64_MIN <= z <= INT64_MAX)%Z)
      by (apply Hrange; left; reflexivity).
    assert (Hu : ((INT64_MAX <? z) && (z <=? UINT64_MAX))%Z = false).
    { apply andb_false_iff. left. apply Z.ltb_ge. lia. }
    assert (Hm : (UINT64_MAX <? z)%Z = false)
      by (apply Z.ltb_ge; unfold UINT64_MAX, INT64_MAX in *; lia).
    assert (Hl : (z <? INT64_MIN)%Z = false) by (apply Z.ltb_ge; lia).
    rewrite Hu, Hm, Hl. cbn [orb andb].
    destruct (float_of_int z); try discriminate;
      apply IH; auto; intros z' Hin; apply Hrange; right; exact Hin.
  - apply andb_prop in H as [_ Hrest].
    apply IH; auto. intros z' Hin. apply Hrange. right. exact Hin.
Qed.

Lemma to_float_decode_cells (l : list number) :
  map to_float (map (fun x => VFloat (to_float (decode x))) l)
  = map (fun x => to_float (decode x)) l.
Proof.
  rewrite map_map. reflexivity.
Qed.

(** The cells of a column are those of the list, in order, and arithmetic
    takes each as the float64 of the number it comes from. *)
Lemma sanitize_array_cells (l : list number) (dt : dtype) (cells : list value) :
  sanitize_array l = Return (dt, cells) ->
  List.length cells = List.length l
  /\ map to_float cells = map (fun x => to_float (decode x)) l
  /\ (dt <> dtype_float64 -> cells = map decode l).
Proof.
  unfold sanitize_array. destruct l as [|x rest].
  - intros H. injection H as <- <-. repeat split.
  - remember (x :: rest) as l eqn:Hl. clear Hl.
    destruct (maybe_convert_objects false false false l) as [d|e];
      cbn [obind]; [|discriminate].
    intros H. injection H as <- <-.
    destruct d; rewrite ?to_float_decode_cells, ?map_map, ?length_map;
      (split; [reflexivity|]); (split; [reflexivity|]);
      intros Hne; try reflexivity; contradiction.
Qed.

Lemma sanitize_array_finite (l : list number) :
  forallb finite_number l = true ->
  exists dt cells, sanitize_array l = Return (dt, cells).
Proof.
  intros H. unfold sanitize_array. destruct l as [|x rest].
  - do 2 eexists. reflexivity.
  - destruct (maybe_convert_objects_finite _ H false false false) as [dt ->].
    do 2 eexists. reflexivity.
Qed.

Lemma sanitize_array_signed (l : list number) :
  forallb finite_number l = true ->
  (forall z, In (PyInt z) l -> (INT64_MIN <= z <= INT64_MAX)%Z) ->
  exists dt cells,
    sanitize_array l = Return (dt, cells) /\ dt <> dtype_object.
Proof.
  intros H Hr. unfold sanitize_array. destruct l as [|x rest].
  - do 2 eexists. split; [reflexivity | discriminate].
  - destruct (maybe_convert_objects_signed _ H Hr false false)
      as (dt & -> & Hdt).
    do 2 eexists. split; [reflexivity | exact Hdt].
Qed.

Lemma column_at_finite (i : nat) (items : list (list number)) :
  finite_numbers items = true ->
  forallb finite_number (column_at i items) = true.
Proof.
  unfold finite_numbers, column_at. intros H.
  apply forallb_forall. intros x Hx. apply in_map_iff in Hx as (item & <- & Hin).
  rewrite forallb_forall in H. specialize (H item Hin).
  rewrite forallb_forall in H.
  destruct (nth_in_or_default i item (PyInt 0)) as [Hn | ->];
    [apply H, Hn | reflexivity].
Qed.

Lemma maybe_convert_objects_raises (l : list number) (e : exn) :
  forall uint_ sint_ float_,
    maybe_convert_objects uint_ sint_ float_ l = Raise e -> e = OverflowError.
Proof.
  induction l as [|[z|s m e'] rest IH]; cbn [maybe_convert_objects];
    intros uint_ sint_ float_ H.
  - discriminate.
  - destruct (float_of_int z); try (injection H as <-; reflexivity);
      (destruct (_ || _ || _); [discriminate | eapply IH, H]).
  - eapply IH, H.
Qed.

Lemma sanitize_array_raises (l : list number) (e : exn) :
  sanitize_array l = Raise e -> e = OverflowError.
Proof.
  unfold sanitize_array. destruct l as [|x rest]; [discriminate|].
  destruct (maybe_convert_objects false false false (x :: rest)) as [d|e0]
    eqn:Hm; cbn [obind]; [discriminate|].
  intros H. injection H as <-. eapply maybe_convert_objects_raises, Hm.
Qed.

Lemma py_truediv_raises (a b : value) (e : exn) :
  py_truediv a b = Raise e -> e = OverflowError \/ e = ZeroDivisionError.
Proof.
  unfold py_truediv, py_float.
  destruct a as [x|x], b as [y|y]; cbn [obind].
  - destruct (y =? 0)%Z; [intros H; injection H as <-; auto|].
    destruct (float_div _ _); intros H; try discriminate.
    injection H as <-. auto.
  - destruct (float_of_int x); cbn [obind];
      try (intros H; injection H as <-; auto);
      destruct (py_is_zero y); intros H; try discriminate;
      injection H as <-; auto.
  - destruct (float_of_int y); cbn [obind];
      try (intros H; injection H as <-; auto);
      destruct (py_is_zero _); intros H; try discriminate;
      injection H as <-; auto.
  - destruct (py_is_zero y); intros H; try discriminate.
    injection H as <-. auto.
Qed.

Lemma object_div_raises (a b : list value) (e : exn) :
  object_div a b = Raise e -> e = OverflowError \/ e = ZeroDivisionError.
Proof.
  revert b. induction a as [|x a IH]; intros [|y b]; cbn [object_div];
    try discriminate.
  destruct (py_truediv x y) as [q|e0] eqn:Hq; cbn [obind].
  - destruct (object_div a b) as [qs|e1] eqn:Hqs; cbn [obind];
      [discriminate|].
    intros H. injection H as <-. eapply IH, Hqs.
  - intros H. injection H as <-. eapply py_truediv_raises, Hq.
Qed.

(** *** The frame *)

(** The frame of a payload that [chart_frame] accepts. *)
Lemma chart_frame_shape (E : environment) (data : chart_payload)
    (df : DataFrame) :
  chart_frame E data = Return df ->
  exists ps,
    map to_float (price df) = map (fun x => to_float (decode x)) ps
    /\ List.length (index df) = List.length (price df)
    /\ returns df = pct_change (map to_float (price df))
    /\ log_returns df
       = np_log (series_div (map to_float (price df))
                   (shift (map to_float (price df))))
    /\ columns df <> [].
Proof.
  unfold chart_frame, getitem. intros H.
  destruct (dict_get "prices" data) as [ps|]; simpl in H; [|discriminate].
  destruct (items_at 0 ps) as [ts|] eqn:Hts; simpl in H; [|discriminate].
  destruct (items_at 1 ps) as [pl|] eqn:Hpl; simpl in H; [|discriminate].
  destruct (dict_get "market_caps" data) as [cs|]; simpl in H; [|discriminate].
  destruct (items_at 1 cs) as [cl|]; simpl in H; [|discriminate].
  destruct (dict_get "total_volumes" data) as [vs|]; simpl in H; [|discriminate].
  destruct (items_at 1 vs) as [vl|]; simpl in H; [|discriminate].
  destruct (negb _); [discriminate|].
  destruct (sanitize_array ts) as [[tdt tc]|]; cbn [obind] in H;
    [|discriminate].
  destruct (sanitize_array pl) as [[pdt pc]|] eqn:Hpc; cbn [obind] in H;
    [|discriminate].
  destruct (sanitize_array cl) as [[cdt cc]|]; cbn [obind] in H;
    [|discriminate].
  destruct (sanitize_array vl) as [[vdt vc]|]; cbn [obind] in H;
    [|discriminate].
  destruct (to_datetime_column E ts) as [ds|] eqn:Hds; cbn [obind] in H;
    [|discriminate].
  destruct (sanitize_array_cells _ _ _ Hpc) as (Hlen & Hcells & _).
  cbn [fst snd] in H.
  assert (Hdf : df = mkDataFrame
                       ["price"; "market_cap"; "volume"; "returns";
                        "log_returns"]%string
                       ds pc cc vc (pct_change (map to_float pc))
                       (np_log (series_div (map to_float pc)
                                  (shift (map to_float pc)))) []).
  { destruct pdt; try (injection H as <-; reflexivity).
    destruct (object_div pc (object_shift pc)); discriminate. }
  subst df. exists pl. cbn [price index returns log_returns columns].
  split; [exact Hcells|].
  split; [rewrite (to_datetime_column_length _ _ _ Hds),
            (items_at_length _ _ _ Hts), Hlen, (items_at_length _ _ _ Hpl);
          reflexivity|].
  repeat split. discriminate.
Qed.

(** The frame of a payload whose arrays are aligned and whose price column
    is not kept as Python objects. *)
Lemma chart_frame_numeric (E : environment) (ps cs vs : list (list number))
    (data : chart_payload) (N : nat) :
  dict_get "prices" data = Some ps ->
  dict_get "market_caps" data = Some cs ->
  dict_get "total_volumes" data = Some vs ->
  List.length ps = N -> List.length cs = N -> List.length vs = N ->
  pairs ps = true -> pairs cs = true -> pairs vs = true ->
  finite_numbers ps = true -> finite_numbers cs = true ->
  finite_numbers vs = true ->
  forallb (convertible E) ps = true ->
  (exists dt cells,
     sanitize_array (column_at 1 ps) = Return (dt, cells)
     /\ dt <> dtype_object) ->
  exists df pdt cdt vdt,
    chart_frame E data = Return df
    /\ to_datetime_column E (column_at 0 ps) = Return (index df)
    /\ sanitize_array (column_at 1 ps) = Return (pdt, price df)
    /\ sanitize_array (column_at 1 cs) = Return (cdt, market_cap df)
    /\ sanitize_array (column_at 1 vs) = Return (vdt, volume df)
    /\ List.length (index df) = N
    /\ columns df
       = ["price"; "market_cap"; "volume"; "returns"; "log_returns"]%string.
Proof.
  intros Hps Hcs Hvs Lp Lc Lv Pp Pc Pv Fp Fc Fv Hconv
         (pdt & pc & Hpc & Hnum).
  destruct (to_datetime_column_convertible E ps Hconv) as [ds Hds].
  destruct (sanitize_array_finite _ (column_at_finite 0 ps Fp))
    as (tdt & tc & Htc).
  destruct (sanitize_array_finite _ (column_at_finite 1 cs Fc))
    as (cdt & cc & Hcc).
  destruct (sanitize_array_finite _ (column_at_finite 1 vs Fv))
    as (vdt & vc & Hvc).
  unfold chart_frame, getitem. rewrite Hps, Hcs, Hvs. cbn [obind].
  rewrite !items_at_pairs by (assumption || lia). cbn [obind].
  rewrite !length_column_at.
  replace (List.length cs =? List.length ps) with true
    by (symmetry; apply Nat.eqb_eq; congruence).
  replace (List.length vs =? List.length ps) with true
    by (symmetry; apply Nat.eqb_eq; congruence).
  cbn [andb negb]. rewrite Htc, Hpc, Hcc, Hvc, Hds. cbn [obind fst snd].
  eexists. exists pdt, cdt, vdt.
  split; [destruct pdt; try reflexivity; contradiction|].
  cbn [index price market_cap volume columns].
  repeat split.
  rewrite (to_datetime_column_length _ _ _ Hds), length_column_at.
  exact Lp.
Qed.

Lemma positive_prices_signed (ps : list (list number)) (z : Z) :
  forallb positive_price ps = true ->
  In (PyInt z) (column_at 1 ps) -> (INT64_MIN <= z <= INT64_MAX)%Z.
Proof.
  intros Hall Hin. unfold column_at in Hin.
  apply in_map_iff in Hin as (item & Hitem & Hin).
  rewrite forallb_forall in Hall. specialize (Hall item Hin).
  unfold positive_price in Hall. rewrite Hitem in Hall.
  cbn [decode to_float] in Hall.
  destruct (float_of_int z) as [| | |[|] m e] eqn:Hf; try discriminate.
  apply Z.leb_le in Hall. split; [|exact Hall].
  destruct z as [|p|p]; try (unfold INT64_MIN; lia).
  exfalso. unfold float_of_int in Hf. cbn [binary_normalize] in Hf.
  pose proof (binary_round_signed 53 1024 true p 0) as Hs.
  destruct (binary_round 53 1024 true p 0) as [s|s| |s m' e'];
    cbn [signed] in Hs; try discriminate; try contradiction.
  subst s. discriminate Hf.
Qed.

Lemma int64_prices_signed (ps : list (list number)) (z : Z) :
  forallb int64_price ps = true ->
  In (PyInt z) (column_at 1 ps) -> (INT64_MIN <= z <= INT64_MAX)%Z.
Proof.
  intros Hall Hin. unfold column_at in Hin.
  apply in_map_iff in Hin as (item & Hitem & Hin).
  rewrite forallb_forall in Hall. specialize (Hall item Hin).
  unfold int64_price in Hall. rewrite Hitem in Hall.
  apply andb_prop in Hall as [H1 H2].
  apply Z.leb_le in H1, H2. lia.
Qed.

Lemma chart_frame_valid (E : environment) (data : chart_payload) (N : nat) :
  valid_chart E data N = true ->
  exists ps df,
    dict_get "prices" data = Some ps
    /\ List.length ps = N
    /\ forallb positive_price ps = true
    /\ chart_frame E data = Return df
    /\ map to_float (price df)
       = map (fun x => to_float (decode x)) (column_at 1 ps)
    /\ len df = N.
Proof.
  unfold valid_chart. intros H.
  destruct (dict_get "prices" data) as [ps|] eqn:Hps; [|discriminate].
  destruct (dict_get "market_caps" data) as [cs|] eqn:Hcs; [|discriminate].
  destruct (dict_get "total_volumes" data) as [vs|] eqn:Hvs; [|discriminate].
  repeat (apply andb_prop in H as [H ?]).
  apply Nat.eqb_eq in H.
  repeat match goal with
         | Heq : (_ =? _) = true |- _ => apply Nat.eqb_eq in Heq
         end.
  destruct (chart_frame_numeric E ps cs vs data N)
    as (df & pdt & cdt & vdt & Hframe & _ & Hprice & _ & _ & Hlen & _);
    try assumption.
  { apply sanitize_array_signed; [apply column_at_finite; assumption|].
    intros z Hz. eapply positive_prices_signed; eassumption. }
  exists ps, df. repeat split; try assumption.
  apply (sanitize_array_cells _ _ _ Hprice).
Qed.

(** The frame of three aligned arrays. *)
Lemma chart_frame_aligned (E : environment) (data : chart_payload) (N : nat) :
  aligned_chart E data N = true ->
  exists df ps cs vs pdt cdt vdt,
    chart_frame E data = Return df
    /\ dict_get "prices" data = Some ps
    /\ dict_get "market_caps" data = Some cs
    /\ dict_get "total_volumes" data = Some vs
    /\ to_datetime_column E (column_at 0 ps) = Return (index df)
    /\ sanitize_array (column_at 1 ps) = Return (pdt, price df)
    /\ sanitize_array (column_at 1 cs) = Return (cdt, market_cap df)
    /\ sanitize_array (column_at 1 vs) = Return (vdt, volume df)
    /\ List.length (index df) = N
    /\ columns df
       = ["price"; "market_cap"; "volume"; "returns"; "log_returns"]%string.
Proof.
  intros Hal. unfold aligned_chart in Hal.
  destruct (dict_get "prices" data) as [ps|] eqn:Hps; [|discriminate].
  destruct (dict_get "market_caps" data) as [cs|] eqn:Hcs; [|discriminate].
  destruct (dict_get "total_volumes" data) as [vs|] eqn:Hvs; [|discriminate].
  repeat (apply andb_prop in Hal as [Hal ?]).
  apply Nat.eqb_eq in Hal.
  repeat match goal with
         | Heq : (_ =? _) = true |- _ => apply Nat.eqb_eq in Heq
         end.
  destruct (chart_frame_numeric E ps cs vs data N)
    as (df & pdt & cdt & vdt & Hframe & Hidx & Hprice & Hcap & Hvol & Hlen
        & Hcols);
    try assumption.
  { apply sanitize_array_signed; [apply column_at_finite; assumption|].
    intros z Hz. eapply int64_prices_signed; eassumption. }
  exists df, ps, cs, vs, pdt, cdt, vdt. repeat split; assumption.
Qed.

Lemma items_at_not_request (i : nat) (items : list (list number)) :
  items_at i items <> Raise RequestException.
Proof.
  induction items as [|item rest IH]; simpl; [discriminate|].
  destruct (nth_error item i); [|discriminate].
  destruct (items_at i rest); simpl; [discriminate | exact IH].
Qed.

Lemma to_datetime_column_not_request (E : environment) (ts : list number) :
  to_datetime_column E ts <> Raise RequestException.
Proof.
  induction ts as [|t rest IH]; simpl; [discriminate|].
  destruct (to_datetime E t); [|discriminate].
  destruct (to_datetime_column E rest); simpl; [discriminate | exact IH].
Qed.

Lemma sanitize_array_not_request (l : list number) :
  sanitize_array l <> Raise RequestException.
Proof.
  intros H. apply sanitize_array_raises in H. discriminate H.
Qed.

(** Building the frame never raises a [RequestException]. *)
Lemma chart_frame_not_request (E : environment) (data : chart_payload) :
  chart_frame E data <> Raise RequestException.
Proof.
  unfold chart_frame, getitem.
  destruct (dict_get "prices" data) as [ps|]; simpl; [|discriminate].
  pose proof (items_at_not_request 0 ps).
  destruct (items_at 0 ps) as [ts|]; simpl; [|congruence].
  pose proof (items_at_not_request 1 ps).
  destruct (items_at 1 ps) as [pl|]; simpl; [|congruence].
  destruct (dict_get "market_caps" data) as [cs|]; simpl; [|discriminate].
  pose proof (items_at_not_request 1 cs).
  destruct (items_at 1 cs) as [cl|]; simpl; [|congruence].
  destruct (dict_get "total_volumes" data) as [vs|]; simpl; [|discriminate].
  pose proof (items_at_not_request 1 vs).
  destruct (items_at 1 vs) as [vl|]; simpl; [|congruence].
  destruct (negb _); [discriminate|].
  pose proof (sanitize_array_not_request ts).
  destruct (sanitize_array ts) as [tc|]; cbn [obind]; [|congruence].
  pose proof (sanitize_array_not_request pl).
  destruct (sanitize_array pl) as [[pdt pc]|]; cbn [obind]; [|congruence].
  pose proof (sanitize_array_not_request cl).
  destruct (sanitize_array cl) as [cc|]; cbn [obind]; [|congruence].
  pose proof (sanitize_array_not_request vl).
  destruct (sanitize_array vl) as [vc|]; cbn [obind]; [|congruence].
  pose proof (to_datetime_column_not_request E ts).
  destruct (to_datetime_column E ts) as [ds|]; cbn [obind]; [|congruence].
  cbn [fst snd]. destruct pdt; try discriminate.
  destruct (object_div pc (object_shift pc)) as [qs|e] eqn:Hq; cbn [obind];
    [discriminate|].
  apply object_div_raises in Hq. destruct Hq as [-> | ->]; discriminate.
Qed.

(** ** Running [get_historical_data] *)

Lemma request_eta (rq : request) : mkRequest (url rq) (params rq) = rq.
Proof.
  destruct rq. reflexivity.
Qed.

(** Unfolds the monadic operations of a function that sends one request, up
    to the case analysis on what comes back. *)
Ltac run_request :=
  unfold try_except, bind, session_get, raise_for_status, response_json,
    lift, print, ret, raise;
  cbv beta zeta; rewrite request_eta.

Lemma get_historical_data_fst (E : environment) (crypto_id vs_currency : string)
    (days : Z) (w : world) :
  fst (get_historical_data E crypto_id vs_currency days w)
  = fetch_outcome E crypto_id vs_currency days.
Proof.
  unfold get_historical_data, fetch_outcome. run_request.
  destruct (chart_api E (chart_request crypto_id vs_currency days)) as [|r];
    simpl; [reflexivity|].
  destruct (status_ok r); simpl; [|reflexivity].
  destruct (body r) as [data|]; simpl; [|reflexivity].
  pose proof (chart_frame_not_request E data) as Hne.
  destruct (chart_frame E data) as [df|e]; simpl; [reflexivity|].
  destruct e; try reflexivity. congruence.
Qed.

(** Apart from the console, the call leaves one trace: its request. *)
Lemma get_historical_data_snd (E : environment) (crypto_id vs_currency : string)
    (days : Z) (w : world) :
  let w' := snd (get_historical_data E crypto_id vs_currency days w) in
  sent w' = sent w ++ [chart_request crypto_id vs_currency days]
  /\ slept w' = slept w /\ clock_reads w' = clock_reads w
  /\ files w' = files w.
Proof.
  unfold get_historical_data. run_request.
  destruct (chart_api E (chart_request crypto_id vs_currency days)) as [|r];
    simpl; [auto|].
  destruct (status_ok r); simpl; [|auto].
  destruct (body r) as [data|]; simpl; [|auto].
  destruct (chart_frame E data) as [df|e]; simpl; [auto|].
  destruct e; simpl; auto.
Qed.

Lemma fetch_any_world (E : environment) (crypto_id : string) (days : Z)
    (w : world) :
  fst (get_historical_data E crypto_id "usd" days w) = fetch E crypto_id days.
Proof.
  unfold fetch. rewrite !get_historical_data_fst. reflexivity.
Qed.

Lemma fetch_is_outcome (E : environment) (crypto_id : string) (days : Z) :
  fetch E crypto_id days = fetch_outcome E crypto_id "usd" days.
Proof.
  apply get_historical_data_fst.
Qed.

(** A returned frame is the empty one or comes from a decoded payload. *)
Lemma fetch_outcome_frame (E : environment) (crypto_id vs_currency : string)
    (days : Z) (df : DataFrame) :
  fetch_outcome E crypto_id vs_currency days = Return df ->
  df = pd_DataFrame \/ exists data, chart_frame E data = Return df.
Proof.
  unfold fetch_outcome.
  destruct (chart_api E _) as [|r]; [intros [= <-]; auto|].
  destruct (status_ok r); [|intros [= <-]; auto].
  destruct (body r) as [data|]; [|intros [= <-]; auto].
  intros H. right. exists data. exact H.
Qed.

(** ** Dictionaries *)

Lemma dict_get_set_same {V : Type} (k : string) (v : V) (d : dict V) :
  dict_get k (dict_set k v d) = Some v.
Proof.
  induction d as [|[k' v'] d IH]; simpl.
  - rewrite String.eqb_refl. reflexivity.
  - destruct (String.eqb k' k) eqn:Hk; simpl.
    + rewrite String.eqb_refl. reflexivity.
    + rewrite Hk. exact IH.
Qed.

Lemma dict_get_set_other {V : Type} (k k0 : string) (v : V) (d : dict V) :
  k <> k0 -> dict_get k0 (dict_set k v d) = dict_get k0 d.
Proof.
  intros Hne. induction d as [|[k' v'] d IH]; simpl.
  - apply String.eqb_neq in Hne. rewrite Hne. reflexivity.
  - destruct (String.eqb k' k) eqn:Hk; simpl.
    + apply String.eqb_eq in Hk. subst k'.
      apply String.eqb_neq in Hne. rewrite Hne. reflexivity.
    + destruct (String.eqb k' k0); [reflexivity | exact IH].
Qed.

Lemma length_dict_set_le {V : Type} (k : string) (v : V) (d : dict V) :
  List.length (dict_set k v d) <= S (List.length d).
Proof.
  induction d as [|[k' v'] d IH]; simpl; [lia|].
  destruct (String.eqb k' k); simpl; lia.
Qed.

Lemma length_dict_set_present {V : Type} (k : string) (v : V) (d : dict V) :
  dict_get k d <> None -> List.length (dict_set k v d) = List.length d.
Proof.
  induction d as [|[k' v'] d IH]; simpl; [congruence|].
  destruct (String.eqb k' k); simpl; [reflexivity|].
  intros H. f_equal. apply IH. exact H.
Qed.


(** ** Tagged frames *)

Lemma empty_set_symbol (df : DataFrame) (s : string) :
  empty df = false -> empty (set_symbol df s) = false.
Proof.
  unfold empty, set_symbol. simpl.
  destruct (columns df) as [|c cs]; [discriminate|].
  destruct (index df); [discriminate|].
  destruct (existsb _ _); reflexivity.
Qed.

Lemma len_set_symbol (df : DataFrame) (s : string) :
  len (set_symbol df s) = len df.
Proof. reflexivity. Qed.

Lemma empty_false_len (df : DataFrame) : empty df = false -> 0 < len df.
Proof.
  unfold empty, len. destruct (columns df); [discriminate|].
  destruct (index df); [discriminate|]. simpl. lia.
Qed.

Lemma symbol_column_listed (df : DataFrame) (s : string) :
  In "symbol"%string (columns (set_symbol df s)).
Proof.
  unfold set_symbol. cbn [columns].
  destruct (existsb (String.eqb "symbol") (columns df)) eqn:Hex.
  - apply existsb_exists in Hex as [c [Hin Hc]].
    apply String.eqb_eq in Hc. subst c. exact Hin.
  - apply in_or_app. right. left. reflexivity.
Qed.

(** ** The loop of [get_multiple_cryptos] *)

Lemma loop_step (E : environment) (crypto_id sym : string)
    (rest : list (string * string)) (days : Z) (results : dict DataFrame)
    (w : world) :
  get_multiple_cryptos_loop E ((crypto_id, sym) :: rest) days results w
  = match get_historical_data E crypto_id "usd" days
            (snd (print (MsgFetching sym crypto_id) w)) with
    | (Return df, w') =>
        get_multiple_cryptos_loop E rest days (loop_update sym df results)
          (snd (sleep 1 w'))
    | (Raise e, w') => (Raise e, w')
    end.
Proof.
  cbn [get_multiple_cryptos_loop]. unfold bind at 1. cbn [print snd].
  unfold bind at 1.
  destruct (get_historical_data E crypto_id "usd" days _) as [[df|e] w'];
    reflexivity.
Qed.

Lemma loop_fst (E : environment) (items : list (string * string)) (days : Z) :
  forall (results : dict DataFrame) (w : world),
    fst (get_multiple_cryptos_loop E items days results w)
    = collected E items days results.
Proof.
  induction items as [|[crypto_id sym] rest IH]; intros results w.
  - reflexivity.
  - rewrite loop_step. cbn [collected].
    rewrite <- (get_historical_data_fst E crypto_id "usd" days
                  (snd (print (MsgFetching sym crypto_id) w))).
    destruct (get_historical_data E crypto_id "usd" days _) as [[df|e] w'];
      cbn [fst obind]; [apply IH | reflexivity].
Qed.

(** The loop reads no clock and writes no file; when it returns, it has sent
    one request per item, in order, and slept one second after each. *)
Lemma loop_snd (E : environment) (items : list (string * string)) (days : Z) :
  forall (results : dict DataFrame) (w : world),
    let w' := snd (get_multiple_cryptos_loop E items days results w) in
    clock_reads w' = clock_reads w /\ files w' = files w
    /\ forall res, collected E items days results = Return res ->
         sent w' = sent w
                   ++ map (fun it => chart_request (fst it) "usd" days) items
         /\ slept w' = slept w + List.length items.
Proof.
  induction items as [|[crypto_id sym] rest IH]; intros results w.
  - cbn. split; [reflexivity | split; [reflexivity|]].
    intros _ _. split; [symmetry; apply app_nil_r | lia].
  - cbv zeta. rewrite loop_step. cbn [collected].
    rewrite <- (get_historical_data_fst E crypto_id "usd" days
                  (snd (print (MsgFetching sym crypto_id) w))).
    pose proof (get_historical_data_snd E crypto_id "usd" days
                  (snd (print (MsgFetching sym crypto_id) w))) as Hw.
    destruct (get_historical_data E crypto_id "usd" days _) as [[df|e] w'];
      cbn [fst snd obind] in *; cbv zeta in Hw;
      destruct Hw as (Hsent & Hslept & Hclock & Hfiles);
      cbn [print snd sent slept clock_reads files] in *.
    + specialize (IH (loop_update sym df results) (snd (sleep 1 w'))).
      cbv zeta in IH. destruct IH as (IHc & IHf & IHs).
      cbn [sleep snd sent slept clock_reads files] in *.
      split; [congruence | split; [congruence|]].
      intros res Hres. destruct (IHs res Hres) as [Hs1 Hs2].
      split.
      * rewrite Hs1, Hsent. cbn [map fst]. rewrite <- app_assoc. reflexivity.
      * rewrite Hs2, Hslept. cbn [List.length]. lia.
    + split; [congruence | split; [congruence | discriminate]].
Qed.

(** ** What the loop collects *)

Lemma length_loop_update (sym : string) (df : DataFrame)
    (acc : dict DataFrame) :
  List.length (loop_update sym df acc) <= S (List.length acc).
Proof.
  unfold loop_update. destruct (negb (empty df)); [|lia].
  apply length_dict_set_le.
Qed.

Section Collected.

Variable E : environment.
Variable days : Z.

Lemma collected_cons (crypto_id sym : string)
    (rest : list (string * string)) (acc : dict DataFrame) :
  collected E ((crypto_id, sym) :: rest) days acc
  = match fetch_outcome E crypto_id "usd" days with
    | Return df => collected E rest days (loop_update sym df acc)
    | Raise e => Raise e
    end.
Proof. reflexivity. Qed.

Lemma collected_length (items : list (string * string)) :
  forall acc res,
    collected E items days acc = Return res ->
    List.length res <= List.length acc + List.length items.
Proof.
  induction items as [|[crypto_id sym] rest IH]; intros acc res H.
  - injection H as <-. simpl. lia.
  - rewrite collected_cons in H.
    destruct (fetch_outcome E crypto_id "usd" days) as [df|e]; [|discriminate].
    apply IH in H. pose proof (length_loop_update sym df acc).
    simpl. lia.
Qed.

(** Every entry of the result was there at the start or is the tagged series
    of an item whose fetch came back with a series that is not empty. *)
Lemma collected_origin (items : list (string * string)) :
  forall acc res k df,
    collected E items days acc = Return res ->
    dict_get k res = Some df ->
    dict_get k acc = Some df
    \/ exists crypto_id df0,
         In (crypto_id, k) items
         /\ fetch_outcome E crypto_id "usd" days = Return df0
         /\ empty df0 = false
         /\ df = set_symbol df0 k.
Proof.
  induction items as [|[crypto_id sym] rest IH]; intros acc res k df H Hk.
  - injection H as <-. left. exact Hk.
  - rewrite collected_cons in H.
    destruct (fetch_outcome E crypto_id "usd" days) as [df1|e] eqn:Hf;
      [|discriminate].
    destruct (IH _ _ _ _ H Hk) as [Hacc | (id & df0 & Hin & Hf0 & He & Hdf)].
    + unfold loop_update in Hacc.
      destruct (empty df1) eqn:He1; simpl in Hacc; [left; exact Hacc|].
      destruct (String.eqb_spec sym k) as [->|Hne].
      * rewrite dict_get_set_same in Hacc. injection Hacc as <-.
        right. exists crypto_id, df1. repeat split; auto. left. reflexivity.
      * rewrite dict_get_set_other in Hacc by exact Hne. left. exact Hacc.
    + right. exists id, df0. repeat split; auto. right. exact Hin.
Qed.

Lemma collected_total (items : list (string * string)) :
  (forall crypto_id sym, In (crypto_id, sym) items ->
     exists df, fetch_outcome E crypto_id "usd" days = Return df) ->
  forall acc, exists res, collected E items days acc = Return res.
Proof.
  induction items as [|[crypto_id sym] rest IH]; intros Hall acc.
  - exists acc. reflexivity.
  - rewrite collected_cons.
    destruct (Hall crypto_id sym (or_introl eq_refl)) as [df ->].
    apply IH. intros id s Hin. apply (Hall id s). right. exact Hin.
Qed.

Lemma collected_app (l1 l2 : list (string * string)) :
  forall acc,
    collected E (l1 ++ l2) days acc
    = match collected E l1 days acc with
      | Return mid => collected E l2 days mid
      | Raise e => Raise e
      end.
Proof.
  induction l1 as [|[crypto_id sym] rest IH]; intros acc.
  - reflexivity.
  - rewrite <- app_comm_cons, !collected_cons.
    destruct (fetch_outcome E crypto_id "usd" days); [apply IH | reflexivity].
Qed.

(** A key of the dictionary stays one. *)
Lemma collected_keeps_keys (items : list (string * string)) :
  forall acc res k,
    collected E items days acc = Return res ->
    dict_get k acc <> None -> dict_get k res <> None.
Proof.
  induction items as [|[crypto_id sym] rest IH]; intros acc res k H Hk.
  - injection H as <-. exact Hk.
  - rewrite collected_cons in H.
    destruct (fetch_outcome E crypto_id "usd" days) as [df|e]; [|discriminate].
    apply (IH _ _ _ H). unfold loop_update.
    destruct (negb (empty df)); [|exact Hk].
    destruct (String.eqb_spec sym k) as [->|Hne].
    + rewrite dict_get_set_same. discriminate.
    + rewrite dict_get_set_other by exact Hne. exact Hk.
Qed.

(** A ticker that no item carries keeps its entry. *)
Lemma collected_other_ticker (items : list (string * string)) :
  forall acc res k,
    collected E items days acc = Return res ->
    (forall crypto_id, ~ In (crypto_id, k) items) ->
    dict_get k res = dict_get k acc.
Proof.
  induction items as [|[crypto_id sym] rest IH]; intros acc res k H Hno.
  - injection H as <-. reflexivity.
  - rewrite collected_cons in H.
    destruct (fetch_outcome E crypto_id "usd" days) as [df|e]; [|discriminate].
    rewrite (IH _ _ _ H) by (intros id Hin; apply (Hno id); right; exact Hin).
    unfold loop_update. destruct (negb (empty df)); [|reflexivity].
    apply dict_get_set_other. intros ->. apply (Hno crypto_id). left. reflexivity.
Qed.

(** The ticker of an item whose fetch succeeded is a key of the result. *)
Lemma collected_success_key (items : list (string * string)) :
  forall acc res crypto_id k df,
    collected E items days acc = Return res ->
    In (crypto_id, k) items ->
    fetch_outcome E crypto_id "usd" days = Return df -> empty df = false ->
    dict_get k res <> None.
Proof.
  induction items as [|[id sym] rest IH];
    intros acc res crypto_id k df H Hin Hf He.
  - destruct Hin.
  - rewrite collected_cons in H.
    destruct (fetch_outcome E id "usd" days) as [df1|e] eqn:Hf1; [|discriminate].
    destruct Hin as [Heq | Hin].
    + injection Heq as -> ->. rewrite Hf in Hf1. injection Hf1 as <-.
      apply (collected_keeps_keys _ _ _ _ H).
      unfold loop_update. rewrite He. simpl.
      rewrite dict_get_set_same. discriminate.
    + apply (IH _ _ _ _ _ H Hin Hf He).
Qed.

(** With a key already present, the result has fewer entries than the start
    and the items together. *)
Lemma collected_length_present (items : list (string * string))
    (crypto_id sym : string) :
  forall acc res,
    collected E ((crypto_id, sym) :: items) days acc = Return res ->
    dict_get sym acc <> None ->
    List.length res <= List.length acc + List.length items.
Proof.
  intros acc res H Hk. rewrite collected_cons in H.
  destruct (fetch_outcome E crypto_id "usd" days) as [df|e]; [|discriminate].
  apply collected_length in H.
  assert (List.length (loop_update sym df acc) = List.length acc).
  { unfold loop_update. destruct (negb (empty df)); [|reflexivity].
    apply length_dict_set_present. exact Hk. }
  lia.
Qed.

End Collected.

(** ** Strings and file names *)

Lemma length_append (a b : string) :
  String.length (a ++ b) = String.length a + String.length b.
Proof.
  induction a as [|c a IH]; simpl; [reflexivity | rewrite IH; reflexivity].
Qed.

Lemma append_assoc (a b c : string) :
  ((a ++ b) ++ c = a ++ (b ++ c))%string.
Proof.
  induction a as [|x a IH]; simpl; [reflexivity | rewrite IH; reflexivity].
Qed.

(** Two strings that end in suffixes of one length agree on the suffixes. *)
Lemma append_suffix_inj (x1 x2 y1 y2 : string) :
  String.length y1 = String.length y2 ->
  (x1 ++ y1 = x2 ++ y2)%string -> y1 = y2.
Proof.
  revert x2. induction x1 as [|c x1 IH]; intros [|c2 x2] Hlen H; simpl in H.
  - exact H.
  - exfalso. apply (f_equal String.length) in H. simpl in H.
    rewrite length_append in H. lia.
  - exfalso. apply (f_equal String.length) in H. simpl in H.
    rewrite length_append in H. lia.
  - injection H as _ H. apply (IH x2 Hlen H).
Qed.

Lemma append_inj_l (x1 x2 y : string) :
  (x1 ++ y = x2 ++ y)%string -> x1 = x2.
Proof.
  revert x2. induction x1 as [|c x1 IH]; intros [|c2 x2] H; simpl in H.
  - reflexivity.
  - exfalso. apply (f_equal String.length) in H. simpl in H.
    rewrite length_append in H. lia.
  - exfalso. apply (f_equal String.length) in H. simpl in H.
    rewrite length_append in H. lia.
  - injection H as -> H. f_equal. apply IH. exact H.
Qed.

Lemma length_zero_padded (width : nat) (n : N) :
  String.length (zero_padded width n) = width.
Proof.
  revert n. induction width as [|w IH]; intros n; simpl; [reflexivity|].
  rewrite length_append, IH. simpl. lia.
Qed.

Lemma length_strftime (d : datetime) : String.length (strftime d) = 15.
Proof.
  unfold strftime. rewrite !length_append, !length_zero_padded. reflexivity.
Qed.

Lemma os_path_join_suffix (a b : string) :
  exists z, os_path_join a b = (z ++ b)%string.
Proof.
  unfold os_path_join. destruct (startswith_sep b).
  - exists EmptyString. reflexivity.
  - destruct (_ || _).
    + exists a. reflexivity.
    + exists (a ++ "/")%string. rewrite append_assoc. reflexivity.
Qed.

(** Every file name of a call ends with the timestamp of the call. *)
Lemma saved_name_suffix (data_dict : dict DataFrame)
    (filename_prefix ts p : string) :
  In p (map fst (saved_files data_dict filename_prefix ts)) ->
  exists z, p = (z ++ (ts ++ ".csv"))%string.
Proof.
  unfold saved_files. rewrite map_app, in_app_iff, map_map. cbn [map fst].
  intros [Hin | [<- | []]].
  - apply in_map_iff in Hin as [[sym df] [<- _]]. cbn [fst].
    destruct (os_path_join_suffix RAW_DATA_DIR
                (asset_filename filename_prefix sym ts)) as [z ->].
    exists (z ++ filename_prefix ++ "_" ++ sym ++ "_")%string.
    unfold asset_filename. rewrite !append_assoc. reflexivity.
  - destruct (os_path_join_suffix RAW_DATA_DIR
                (combined_filename filename_prefix ts)) as [z ->].
    exists (z ++ filename_prefix ++ "_combined_")%string.
    unfold combined_filename. rewrite !append_assoc. reflexivity.
Qed.

Lemma saved_names_disjoint (d1 d2 : dict DataFrame) (pre1 pre2 : string)
    (t1 t2 : datetime) (p : string) :
  strftime t1 <> strftime t2 ->
  In p (map fst (saved_files d1 pre1 (strftime t1))) ->
  ~ In p (map fst (saved_files d2 pre2 (strftime t2))).
Proof.
  intros Hne H1 H2.
  apply saved_name_suffix in H1 as [z1 Hz1].
  apply saved_name_suffix in H2 as [z2 Hz2].
  rewrite Hz1 in Hz2. apply append_suffix_inj in Hz2.
  - apply append_inj_l in Hz2. contradiction.
  - rewrite !length_append, !length_strftime. reflexivity.
Qed.

Lemma saved_contents (data_dict : dict DataFrame)
    (filename_prefix ts1 ts2 : string) :
  map snd (saved_files data_dict filename_prefix ts1)
  = map snd (saved_files data_dict filename_prefix ts2).
Proof.
  unfold saved_files. rewrite !map_app, !map_map. reflexivity.
Qed.

(** ** Running [save_data] *)

Lemma save_data_loop_run (E : environment) (filename_prefix ts : string)
    (items : list (string * DataFrame)) :
  (forall p, can_write E p = true) ->
  forall w,
    save_data_loop E filename_prefix ts items w
    = (Return tt,
       mkWorld (sent w) (slept w)
         (stdout w
          ++ map (fun it =>
                    MsgSaved (os_path_join RAW_DATA_DIR
                                (asset_filename filename_prefix (fst it) ts)))
                 items)
         (clock_reads w)
         (files w
          ++ map (fun it =>
                    (os_path_join RAW_DATA_DIR
                       (asset_filename filename_prefix (fst it) ts),
                     Csv (snd it)))
                 items)).
Proof.
  intros Hfs. induction items as [|[sym df] rest IH]; intros w.
  - cbn. rewrite !app_nil_r. destruct w; reflexivity.
  - cbn [save_data_loop]. unfold bind at 1. unfold to_csv at 1.
    rewrite Hfs. unfold bind at 1. cbn [print].
    rewrite IH. cbn [sent slept stdout clock_reads files map fst snd].
    rewrite <- !app_assoc. reflexivity.
Qed.

Lemma save_data_run (E : environment) (data_dict : dict DataFrame)
    (filename_prefix : string) (w : world) :
  (forall p, can_write E p = true) ->
  data_dict <> [] ->
  let ts := strftime (now E (clock_reads w)) in
  exists out,
    save_data E data_dict filename_prefix w
    = (Return tt,
       mkWorld (sent w) (slept w) out (S (clock_reads w))
         (files w ++ saved_files data_dict filename_prefix ts)).
Proof.
  intros Hfs Hne. cbv zeta.
  unfold save_data. unfold bind at 1. cbn [datetime_now].
  unfold bind at 1. rewrite save_data_loop_run by exact Hfs.
  unfold bind at 1. unfold lift, pd_concat.
  destruct data_dict as [|[sym df] rest]; [contradiction|].
  cbn [values map]. unfold bind at 1. unfold to_csv at 1. rewrite Hfs.
  cbn [print sent slept stdout clock_reads files].
  eexists. unfold saved_files. rewrite <- app_assoc. reflexivity.
Qed.

Lemma save_data_empty (E : environment) (filename_prefix : string) (w : world) :
  save_data E [] filename_prefix w
  = (Raise ValueError,
     mkWorld (sent w) (slept w) (stdout w) (S (clock_reads w)) (files w)).
Proof.
  reflexivity.
Qed.

(** ** Properties of [get_historical_data] *)

Lemma positive_column (ps : list (list number)) (t : nat) (x : number) :
  forallb positive_price ps = true ->
  nth_error (column_at 1 ps) t = Some x ->
  exists m e, to_float (decode x) = S754_finite false m e.
Proof.
  intros Hall Hx. unfold column_at in Hx. rewrite nth_error_map in Hx.
  destruct (nth_error ps t) as [item|] eqn:Hitem; [|discriminate].
  injection Hx as <-. apply nth_error_In in Hitem.
  rewrite forallb_forall in Hall. apply Hall in Hitem.
  unfold positive_price in Hitem.
  destruct (to_float (decode (nth 1 item (PyInt 0)))) as [s|s| |[|] m e];
    try discriminate.
  exists m, e. reflexivity.
Qed.

(** A cell of a column and the number it comes from. *)
Lemma cell_of_column (cells : list value) (l : list number) (t : nat)
    (c : value) :
  map to_float cells = map (fun x => to_float (decode x)) l ->
  nth_error cells t = Some c ->
  exists x, nth_error l t = Some x /\ to_float c = to_float (decode x).
Proof.
  intros Hmap Hc.
  pose proof (map_nth_error to_float _ _ Hc) as H. rewrite Hmap in H.
  rewrite nth_error_map in H.
  destruct (nth_error l t) as [x|]; [|discriminate].
  injection H as H. exists x. split; [reflexivity | symmetry; exact H].
Qed.

Lemma items_at_raises (i : nat) (items : list (list number)) (e : exn) :
  items_at i items = Raise e -> e = IndexError.
Proof.
  induction items as [|item rest IH]; cbn; intros H; [discriminate|].
  destruct (nth_error item i); [|congruence].
  destruct (items_at i rest); cbn in H; [discriminate|].
  injection H as <-. apply IH. reflexivity.
Qed.

(** C1.  For every valid raw response holding N index-aligned pairs per
    array, the conversion step of [get_historical_data] yields a series of
    exactly N records; [returns] and [log_returns] are missing (NaN) at index
    0 and are defined at every index t > 0, where they hold the float64
    values of price[t]/price[t-1] - 1 and of [np.log] of price[t]/price[t-1]. *)
Theorem C1_normalized_series (E : environment) (crypto_id vs_currency : string)
    (days : Z) (w : world) (data : chart_payload) (N : nat) :
  chart_api E (chart_request crypto_id vs_currency days)
    = Delivered (mkResponse true (Some data)) ->
  valid_chart E data N = true ->
  exists df w',
    get_historical_data E crypto_id vs_currency days w = (Return df, w')
    /\ len df = N
    /\ List.length (price df) = N
    /\ List.length (returns df) = N
    /\ List.length (log_returns df) = N
    /\ (0 < N ->
        nth_error (returns df) 0 = Some S754_nan
        /\ nth_error (log_returns df) 0 = Some LogNaN)
    /\ (forall t, 0 < t < N ->
        exists cur prev,
          nth_error (price df) t = Some cur
          /\ nth_error (price df) (t - 1) = Some prev
          /\ nth_error (returns df) t
             = Some (float_sub (float_div (to_float cur) (to_float prev)) one)
          /\ isna (float_sub (float_div (to_float cur) (to_float prev)) one)
             = false
          /\ nth_error (log_returns df) t
             = Some (log (float_div (to_float cur) (to_float prev)))
          /\ log_isna (log (float_div (to_float cur) (to_float prev)))
             = false).
Proof.
  intros Hapi Hvalid.
  destruct (chart_frame_valid E data N Hvalid)
    as (ps & df & Hps & HN & Hpos & Hframe & Hprice & Hlen).
  destruct (chart_frame_shape E data df Hframe)
    as (qs & _ & _ & Hret & Hlog & _).
  pose proof (get_historical_data_fst E crypto_id vs_currency days w) as Hfst.
  unfold fetch_outcome in Hfst. rewrite Hapi in Hfst. cbn in Hfst.
  rewrite Hframe in Hfst.
  destruct (get_historical_data E crypto_id vs_currency days w) as [o w'].
  cbn in Hfst. subst o. exists df, w'.
  assert (HlenP : List.length (price df) = N).
  { rewrite <- (length_map to_float), Hprice, length_map, length_column_at.
    exact HN. }
  assert (HlenF : List.length (map to_float (price df)) = N)
    by (rewrite length_map; exact HlenP).
  split; [reflexivity|]. split; [exact Hlen|]. split; [exact HlenP|].
  split; [rewrite Hret, length_pct_change; exact HlenF|].
  split.
  { rewrite Hlog. unfold np_log.
    rewrite length_map, length_series_div_shift. exact HlenF. }
  split.
  - intros HposN.
    destruct (nth_error (map to_float (price df)) 0) as [x|] eqn:Hx.
    + rewrite Hret, Hlog.
      split; [apply (pct_change_first _ _ Hx) | apply (log_ratio_first _ _ Hx)].
    + apply nth_error_None in Hx. lia.
  - intros [|t] [Ht0 HtN]; [lia|].
    replace (S t - 1) with t by lia.
    destruct (nth_error (price df) (S t)) as [cur|] eqn:Hcur;
      [|apply nth_error_None in Hcur; lia].
    destruct (nth_error (price df) t) as [prev|] eqn:Hprev;
      [|apply nth_error_None in Hprev; lia].
    destruct (cell_of_column _ _ _ _ Hprice Hcur) as (xc & Hxc & Hfc).
    destruct (cell_of_column _ _ _ _ Hprice Hprev) as (xp & Hxp & Hfp).
    destruct (positive_column _ _ _ Hpos Hxc) as (mc & ec & Hc).
    destruct (positive_column _ _ _ Hpos Hxp) as (mp & ep & Hp).
    rewrite <- Hfc in Hc. rewrite <- Hfp in Hp.
    pose proof (map_nth_error to_float _ _ Hcur) as Hx.
    pose proof (map_nth_error to_float _ _ Hprev) as Hy.
    pose proof (float_div_finite false false mc mp ec ep) as Hq.
    cbn [xorb] in Hq. rewrite <- Hc, <- Hp in Hq.
    exists cur, prev.
    split; [reflexivity|]. split; [reflexivity|].
    split; [rewrite Hret; apply (pct_change_later _ _ _ _ Hx Hy)|].
    split; [apply float_sub_one_not_nan, (signed_not_nan _ _ Hq)|].
    split; [rewrite Hlog; apply (log_ratio_later _ _ _ _ Hx Hy)|].
    apply log_of_positive_sign. exact Hq.
Qed.

(** C2 (as amended).  In every series [get_historical_data] returns and at
    every index t > 0, [log_returns[t]] is [np.log] of the float64 quotient
    price[t] / price[t-1].  It is missing (NaN) whenever that quotient is
    negative, and it is not missing whenever the two prices are finite, not
    zero and of the same sign: a price[t-1] that is not positive does not by
    itself make it missing. *)
Theorem C2_log_returns (E : environment) (crypto_id vs_currency : string)
    (days : Z) (w w' : world) (df : DataFrame) (t : nat) (cur prev : value) :
  get_historical_data E crypto_id vs_currency days w = (Return df, w') ->
  nth_error (price df) (S t) = Some cur ->
  nth_error (price df) t = Some prev ->
  nth_error (log_returns df) (S t)
  = Some (log (float_div (to_float cur) (to_float prev)))
  /\ (negative (float_div (to_float cur) (to_float prev)) = true ->
      log_isna (log (float_div (to_float cur) (to_float prev))) = true)
  /\ (forall s mc ec mp ep,
        to_float cur = S754_finite s mc ec ->
        to_float prev = S754_finite s mp ep ->
        log_isna (log (float_div (to_float cur) (to_float prev))) = false).
Proof.
  intros Hrun Hx Hy.
  pose proof (get_historical_data_fst E crypto_id vs_currency days w) as Hfst.
  rewrite Hrun in Hfst. cbn in Hfst. symmetry in Hfst.
  destruct (fetch_outcome_frame _ _ _ _ _ Hfst) as [-> | [data Hframe]];
    [discriminate|].
  destruct (chart_frame_shape E data df Hframe) as (qs & _ & _ & _ & Hlog & _).
  apply (map_nth_error to_float) in Hx, Hy.
  split; [rewrite Hlog; apply (log_ratio_later _ _ _ _ Hx Hy)|]. split.
  - destruct (float_div _ _) as [s|[|]| |[|] m e]; cbn;
      intros H; try discriminate; reflexivity.
  - intros s mc ec mp ep -> ->.
    pose proof (float_div_finite s s mc mp ec ep) as Hq.
    rewrite xorb_nilpotent in Hq.
    apply log_of_positive_sign. exact Hq.
Qed.

(** C3 (as amended).  When the request yields no decoded payload (no
    response, a status that is not 2xx, or a body that is empty or is not
    JSON), [get_historical_data] returns the empty series and raises nothing;
    a decoded payload that lacks one of the expected arrays is not recovered:
    a [KeyError] or an [IndexError] reaches the caller. *)
Theorem C3_failed_transport_gives_empty (E : environment)
    (crypto_id vs_currency : string) (days : Z) (w : world) :
  (transport_failed (chart_api E (chart_request crypto_id vs_currency days))
     = true ->
   fst (get_historical_data E crypto_id vs_currency days w)
     = Return pd_DataFrame)
  /\ (forall data,
        chart_api E (chart_request crypto_id vs_currency days)
          = Delivered (mkResponse true (Some data)) ->
        lacks_array data = true ->
        fst (get_historical_data E crypto_id vs_currency days w)
          = Raise KeyError
        \/ fst (get_historical_data E crypto_id vs_currency days w)
          = Raise IndexError).
Proof.
  rewrite get_historical_data_fst. unfold fetch_outcome. split.
  - intros Hfail.
    destruct (chart_api E _) as [|[ok [data|]]]; cbn in *; try reflexivity;
      destruct ok; cbn in *; try reflexivity; discriminate.
  - intros data -> Hlack. cbn. unfold lacks_array in Hlack.
    unfold chart_frame, getitem.
    destruct (dict_get "prices" data) as [ps|]; cbn; [|left; reflexivity].
    destruct (items_at 0 ps) as [ts|e0] eqn:H0; cbn;
      [|right; f_equal; apply (items_at_raises _ _ _ H0)].
    destruct (items_at 1 ps) as [pl|e1] eqn:H1; cbn;
      [|right; f_equal; apply (items_at_raises _ _ _ H1)].
    destruct (dict_get "market_caps" data) as [cs|]; cbn; [|left; reflexivity].
    destruct (items_at 1 cs) as [cl|e2] eqn:H2; cbn;
      [|right; f_equal; apply (items_at_raises _ _ _ H2)].
    destruct (dict_get "total_volumes" data) as [vs|]; cbn;
      [discriminate | left; reflexivity].
Qed.

(** ** Properties of [get_multiple_cryptos] *)

Lemma get_multiple_cryptos_returns (E : environment) (crypto_dict : dict string)
    (days : Z) (w w' : world) (results : dict DataFrame) :
  get_multiple_cryptos E crypto_dict days w = (Return results, w') ->
  collected E crypto_dict days [] = Return results.
Proof.
  intros H. unfold get_multiple_cryptos in H.
  rewrite <- (loop_fst E crypto_dict days [] w), H. reflexivity.
Qed.

(** C4.  Whatever the per-asset fetches give, the collection the orchestrator
    returns has at most as many entries as the input map, every series in it
    is non-empty and is the tagged series of an input asset whose fetch
    succeeded, and an asset whose fetch failed (empty series) is absent: its
    ticker is no key of the output unless another asset of the same ticker
    succeeded. *)
Theorem C4_output_bounded (E : environment) (crypto_dict : dict string)
    (days : Z) (w w' : world) (results : dict DataFrame) :
  get_multiple_cryptos E crypto_dict days w = (Return results, w') ->
  List.length results <= List.length crypto_dict
  /\ (forall k df,
        dict_get k results = Some df ->
        empty df = false
        /\ exists crypto_id df0,
             In (crypto_id, k) crypto_dict
             /\ fetch E crypto_id days = Return df0
             /\ empty df0 = false
             /\ df = set_symbol df0 k)
  /\ (forall crypto_id k,
        In (crypto_id, k) crypto_dict ->
        fetch_failed E crypto_id days ->
        dict_get k results = None
        \/ exists other,
             other <> crypto_id /\ In (other, k) crypto_dict
             /\ fetch_succeeded E other days).
Proof.
  intros Hrun. apply get_multiple_cryptos_returns in Hrun.
  assert (Horigin : forall k df,
             dict_get k results = Some df ->
             exists crypto_id df0,
               In (crypto_id, k) crypto_dict
               /\ fetch E crypto_id days = Return df0
               /\ empty df0 = false
               /\ df = set_symbol df0 k).
  { intros k df Hk.
    destruct (collected_origin E days crypto_dict [] results k df Hrun Hk)
      as [Habs | (id & df0 & Hin & Hf & He & Hdf)]; [discriminate|].
    exists id, df0. rewrite fetch_is_outcome. auto. }
  split; [|split].
  - apply (collected_length E days crypto_dict [] results Hrun).
  - intros k df Hk. destruct (Horigin k df Hk) as (id & df0 & Hin & Hf & He & ->).
    split; [apply empty_set_symbol; exact He|].
    exists id, df0. auto.
  - intros crypto_id k Hin (dfe & Hfe & Hee).
    destruct (dict_get k results) as [df|] eqn:Hk; [right | left; reflexivity].
    destruct (Horigin k df Hk) as (id & df0 & Hin0 & Hf & He & _).
    exists id. split; [|split; [exact Hin0 | exists df0; auto]].
    intros ->. rewrite Hf in Hfe. injection Hfe as ->. congruence.
Qed.




(** C8.  Every series stored in the output collection under the ticker k
    has a [symbol] column that holds k on each of its records, and k is the
    ticker the input map gives for the asset that was fetched. *)
Theorem C8_symbol_is_key (E : environment) (crypto_dict : dict string)
    (days : Z) (w w' : world) (results : dict DataFrame) (k : string)
    (df : DataFrame) :
  get_multiple_cryptos E crypto_dict days w = (Return results, w') ->
  dict_get k results = Some df ->
  In "symbol"%string (columns df)
  /\ 0 < len df
  /\ List.length (symbol df) = len df
  /\ (forall t, t < len df -> nth_error (symbol df) t = Some k)
  /\ exists crypto_id df0,
       In (crypto_id, k) crypto_dict
       /\ fetch E crypto_id days = Return df0
       /\ df = set_symbol df0 k.
Proof.
  intros Hrun Hk. apply get_multiple_cryptos_returns in Hrun.
  destruct (collected_origin E days crypto_dict [] results k df Hrun Hk)
    as [Habs | (id & df0 & Hin & Hf & He & ->)]; [discriminate|].
  split; [apply symbol_column_listed|].
  split; [rewrite len_set_symbol; apply empty_false_len; exact He|].
  split; [cbn; apply repeat_length|].
  split.
  - intros t Ht. cbn. rewrite len_set_symbol in Ht.
    apply nth_error_repeat. exact Ht.
  - exists id, df0. rewrite fetch_is_outcome. auto.
Qed.

(** C10.  The output is keyed by ticker: when two entries of the input map
    carry the same ticker and every fetch succeeds, the series of the later
    entry replaces that of the earlier one, and the output has strictly fewer
    entries than the input. *)
Theorem C10_shared_ticker_overwrites (E : environment)
    (l1 l2 l3 : list (string * string)) (a b s : string) (days : Z)
    (w : world) :
  (forall crypto_id sym,
     In (crypto_id, sym) (l1 ++ (a, s) :: l2 ++ (b, s) :: l3) ->
     fetch_succeeded E crypto_id days) ->
  (forall crypto_id, ~ In (crypto_id, s) l3) ->
  exists results w' dfb,
    get_multiple_cryptos E (l1 ++ (a, s) :: l2 ++ (b, s) :: l3) days w
      = (Return results, w')
    /\ fetch E b days = Return dfb
    /\ dict_get s results = Some (set_symbol dfb s)
    /\ List.length results
       < List.length (l1 ++ (a, s) :: l2 ++ (b, s) :: l3).
Proof.
  intros Hall Hlast.
  set (items := l1 ++ (a, s) :: l2 ++ (b, s) :: l3) in *.
  assert (Hsplit : items = (l1 ++ (a, s) :: l2) ++ (b, s) :: l3).
  { unfold items. rewrite <- app_assoc. reflexivity. }
  destruct (collected_total E days items) with (acc := @nil (string * DataFrame))
    as [results Hres].
  { intros id sym Hin. rewrite <- fetch_is_outcome.
    destruct (Hall id sym Hin) as (df & Hf & _). exists df. exact Hf. }
  pose proof (loop_fst E items days [] w) as Hfst.
  unfold get_multiple_cryptos.
  destruct (get_multiple_cryptos_loop E items days [] w) as [o w'].
  cbn [fst] in Hfst. rewrite Hres in Hfst. subst o.
  destruct (Hall a s) as (dfa & Hfa & Hea).
  { unfold items. apply in_or_app. right. left. reflexivity. }
  destruct (Hall b s) as (dfb & Hfb & Heb).
  { rewrite Hsplit. apply in_or_app. right. left. reflexivity. }
  exists results, w', dfb. split; [reflexivity|]. split; [exact Hfb|].
  rewrite Hsplit, collected_app in Hres.
  destruct (collected E (l1 ++ (a, s) :: l2) days []) as [mid|e] eqn:Hmid;
    [|discriminate].
  assert (Hkey : dict_get s mid <> None).
  { rewrite fetch_is_outcome in Hfa.
    apply (collected_success_key E days _ [] mid a s dfa Hmid); auto.
    apply in_or_app. right. left. reflexivity. }
  pose proof (collected_length _ _ _ _ _ Hmid) as Hlen1.
  pose proof (collected_length_present _ _ _ _ _ _ _ Hres Hkey) as Hlen2.
  split.
  - rewrite collected_cons in Hres. rewrite fetch_is_outcome in Hfb.
    rewrite Hfb in Hres.
    rewrite (collected_other_ticker _ _ _ _ _ _ Hres Hlast).
    unfold loop_update. rewrite Heb. cbn [negb].
    apply dict_get_set_same.
  - rewrite Hsplit, !length_app in *. cbn [List.length] in *. lia.
Qed.

(** ** Properties of [save_data], [get_current_prices] and [main] *)

(** C6.  On a non-empty collection [save_data] reads the clock once and
    puts the timestamp it formats from that reading in the name of every
    per-asset file and of the combined file.  Two calls whose timestamps
    differ therefore write two sets of file names that have no name in
    common, with the same contents. *)
Theorem C6_one_timestamp_per_call (E : environment)
    (data_dict : dict DataFrame) (filename_prefix : string) (w1 w2 : world) :
  data_dict <> [] ->
  (forall p, can_write E p = true) ->
  valid_datetime (now E (clock_reads w1)) = true ->
  valid_datetime (now E (clock_reads w2)) = true ->
  strftime (now E (clock_reads w1)) <> strftime (now E (clock_reads w2)) ->
  exists w1' w2',
    save_data E data_dict filename_prefix w1 = (Return tt, w1')
    /\ save_data E data_dict filename_prefix w2 = (Return tt, w2')
    /\ clock_reads w1' = S (clock_reads w1)
    /\ clock_reads w2' = S (clock_reads w2)
    /\ files w1'
       = files w1
         ++ saved_files data_dict filename_prefix
              (strftime (now E (clock_reads w1)))
    /\ files w2'
       = files w2
         ++ saved_files data_dict filename_prefix
              (strftime (now E (clock_reads w2)))
    /\ (forall p,
          In p (map fst (saved_files data_dict filename_prefix
                           (strftime (now E (clock_reads w1))))) ->
          ~ In p (map fst (saved_files data_dict filename_prefix
                             (strftime (now E (clock_reads w2))))))
    /\ map snd (saved_files data_dict filename_prefix
                  (strftime (now E (clock_reads w1))))
       = map snd (saved_files data_dict filename_prefix
                    (strftime (now E (clock_reads w2)))).
Proof.
  intros Hne Hfs _ _ Hts.
  destruct (save_data_run E data_dict filename_prefix w1 Hfs Hne) as [o1 H1].
  destruct (save_data_run E data_dict filename_prefix w2 Hfs Hne) as [o2 H2].
  cbv zeta in H1, H2. rewrite H1, H2.
  do 2 eexists. split; [reflexivity|]. split; [reflexivity|].
  cbn [clock_reads files].
  split; [reflexivity|]. split; [reflexivity|].
  split; [reflexivity|]. split; [reflexivity|].
  split.
  - intros p. apply saved_names_disjoint. exact Hts.
  - apply saved_contents.
Qed.













(** C9.  Called with an empty collection, [save_data] writes no file and
    raises the [ValueError] of the concatenation instead of returning, whereas
    on a non-empty collection whose files can be written it returns; [main]
    calls it only behind the test that the collection is non-empty, so a batch
    without any success ends with the notice that nothing was collected and
    raises nothing. *)
Theorem C9_empty_collection_raises (E : environment) (filename_prefix : string)
    (w : world) :
  (exists w',
     save_data E [] filename_prefix w = (Raise ValueError, w')
     /\ files w' = files w)
  /\ (forall data_dict,
        data_dict <> [] -> (forall p, can_write E p = true) ->
        fst (save_data E data_dict filename_prefix w) = Return tt)
  /\ (fst (get_multiple_cryptos E CRYPTOCURRENCIES DEFAULT_DAYS w) = Return [] ->
      exists out w',
        main E w = (Return tt, w')
        /\ stdout w' = out ++ [MsgNothingCollected]
        /\ files w' = files w
        /\ clock_reads w' = clock_reads w).
Proof.
  split; [|split].
  - rewrite save_data_empty. eexists. split; reflexivity.
  - intros data_dict Hne Hfs.
    destruct (save_data_run E data_dict filename_prefix w Hfs Hne) as [o H].
    cbv zeta in H. rewrite H. reflexivity.
  - intros Hnone. unfold get_multiple_cryptos in *.
    rewrite loop_fst in Hnone.
    unfold main. unfold bind at 1. cbn [print].
    unfold bind at 1. cbn [print]. unfold bind at 1. cbn [print].
    unfold bind at 1. unfold get_multiple_cryptos.
    match goal with
    | |- context [get_multiple_cryptos_loop E ?l ?d ?r ?w0] =>
        pose proof (loop_fst E l d r w0) as Hfst;
        pose proof (loop_snd E l d r w0) as Hsnd;
        destruct (get_multiple_cryptos_loop E l d r w0) as [o w1]
    end.
    cbn [fst snd] in *. cbv zeta in Hsnd. rewrite Hnone in Hfst. subst o.
    destruct Hsnd as (Hclock & Hfiles & _).
    cbn [print sent slept stdout clock_reads files] in *.
    do 2 eexists. split; [reflexivity|]. cbn [stdout files clock_reads].
    split; [reflexivity|]. split; assumption.
Qed.

(** ** The properties on the scenarios *)

Lemma scenario_run_eq :
  get_multiple_cryptos env_bitcoin_down scenario_map 3 initial_world
  = (Return scenario_results, snd scenario_run).
Proof. vm_compute. reflexivity. Qed.

Lemma frame3_run :
  get_historical_data env_ok "ethereum" "usd" 3 initial_world
  = (Return frame3,
     snd (get_historical_data env_ok "ethereum" "usd" 3 initial_world)).
Proof. vm_compute. reflexivity. Qed.

(** Both fetches succeed with three records each: the result has the keys
    BTC and ETH, in this order, and each series has three records. *)
Example both_assets_collected :
  match fst (get_multiple_cryptos env_ok scenario_map 3 initial_world) with
  | Return results =>
      keys results = ["BTC"; "ETH"]%string
      /\ map len (values results) = [3; 3]
      /\ map (fun df => nth_error (returns df) 0) (values results)
         = [Some S754_nan; Some S754_nan]
  | Raise _ => False
  end.
Proof. vm_compute. repeat split. Qed.

(** The [bitcoin] fetch fails, the [ethereum] one succeeds: only ETH is
    collected, after both requests and two seconds of pause. *)
Example only_ethereum_collected :
  keys scenario_results = ["ETH"]%string
  /\ List.length (sent (snd scenario_run)) = 2
  /\ slept (snd scenario_run) = 2.
Proof. vm_compute. repeat split. Qed.

Example saved_file_names :
  map fst (saved_files scenario_results "crypto_data" "20240102_030405")
  = ["data/raw/crypto_data_ETH_20240102_030405.csv";
     "data/raw/crypto_data_combined_20240102_030405.csv"]%string.
Proof. vm_compute. reflexivity. Qed.

Lemma C1_witness :
  exists df w',
    get_historical_data env_ok "ethereum" "usd" 3 initial_world
    = (Return df, w')
    /\ len df = 3
    /\ nth_error (returns df) 0 = Some S754_nan
    /\ nth_error (log_returns df) 0 = Some LogNaN.
Proof.
  destruct (C1_normalized_series env_ok "ethereum" "usd" 3 initial_world
              chart3 3 eq_refl eq_refl)
    as (df & w' & Hrun & Hlen & _ & _ & _ & Hfirst & _).
  exists df, w'. split; [exact Hrun|]. split; [exact Hlen|].
  apply Hfirst. apply Nat.lt_0_succ.
Defined.

Lemma C2_witness :
  nth_error (log_returns frame3) 1
  = Some (log (float_div (float_of_int 110) (float_of_int 100)))
  /\ log_isna (log (float_div (float_of_int 110) (float_of_int 100))) = false.
Proof.
  destruct (C2_log_returns env_ok "ethereum" "usd" 3 initial_world _ frame3 0
              (VInt 110) (VInt 100) frame3_run eq_refl eq_refl)
    as (Hl & _ & Hsame).
  split; [exact Hl|].
  apply (Hsame false 7740561859543040%positive (-46)%Z
           7036874417766400%positive (-46)%Z);
    reflexivity.
Defined.

(** With prices -1 then -2 the previous price is not positive, and yet
    [log_returns[1]] is the logarithm of 2.0, not a missing value. *)
Lemma C2_counterexample :
  ~ (forall (E : environment) (crypto_id vs_currency : string) (days : Z)
            (w w' : world) (df : DataFrame) (t : nat) (prev : value)
            (l : logfloat),
       get_historical_data E crypto_id vs_currency days w = (Return df, w') ->
       nth_error (price df) t = Some prev ->
       non_positive (to_float prev) = true ->
       nth_error (log_returns df) (S t) = Some l ->
       log_isna l = true).
Proof.
  intros H.
  assert (Hrun : exists df w',
             get_historical_data env_negative "bitcoin" "usd" 2 initial_world
             = (Return df, w')
             /\ nth_error (price df) 0 = Some (VInt (-1))
             /\ nth_error (log_returns df) 1
                = Some (Ln (S754_finite false 4503599627370496 (-51)))).
  { do 2 eexists. split; [vm_compute; reflexivity|].
    split; vm_compute; reflexivity. }
  destruct Hrun as (df & w' & Hrun & Hp & Hl).
  specialize (H env_negative "bitcoin"%string "usd"%string 2%Z initial_world w'
                df 0 (VInt (-1)) _ Hrun Hp eq_refl Hl).
  discriminate H.
Qed.

Lemma C3_witness :
  fst (get_historical_data env_offline "bitcoin" "usd" 365 initial_world)
  = Return pd_DataFrame.
Proof.
  apply (proj1 (C3_failed_transport_gives_empty env_offline "bitcoin" "usd"
                  365 initial_world)).
  reflexivity.
Defined.

(** The body [{}] is decoded and lacks the three arrays: the [KeyError] of
    [data['prices']] leaves [get_historical_data]. *)
Lemma C3_counterexample :
  chart_api env_empty_object (chart_request "bitcoin" "usd" 365)
  = Delivered (mkResponse true (Some []))
  /\ lacks_array [] = true
  /\ fst (get_historical_data env_empty_object "bitcoin" "usd" 365
            initial_world)
     = Raise KeyError
  /\ fst (get_historical_data env_empty_object "bitcoin" "usd" 365
            initial_world)
     <> Return pd_DataFrame.
Proof.
  split; [reflexivity|]. split; [reflexivity|].
  split; [vm_compute; reflexivity | vm_compute; discriminate].
Qed.

Lemma C4_witness :
  List.length scenario_results <= List.length scenario_map
  /\ dict_get "BTC" scenario_results = None.
Proof.
  destruct (C4_output_bounded env_bitcoin_down scenario_map 3 initial_world _
              scenario_results scenario_run_eq) as (Hlen & _ & _).
  split; [exact Hlen | reflexivity].
Defined.



Lemma C6_witness :
  exists w1' w2',
    save_data env_ok scenario_results "crypto_data" initial_world
    = (Return tt, w1')
    /\ save_data env_ok scenario_results "crypto_data" later_world
       = (Return tt, w2')
    /\ clock_reads w1' = 1 /\ clock_reads w2' = 2.
Proof.
  destruct (C6_one_timestamp_per_call env_ok scenario_results "crypto_data"
              initial_world later_world)
    as (w1' & w2' & H1 & H2 & Hc1 & Hc2 & _).
  - intros H. vm_compute in H. discriminate H.
  - intros p. reflexivity.
  - reflexivity.
  - reflexivity.
  - intros H. vm_compute in H. discriminate H.
  - exists w1', w2'. auto.
Defined.



(** A quote with a field named [crypto_id]: the [ValueError] of
    [reset_index] reaches the caller. *)
Example quote_field_named_crypto_id :
  fst (get_current_prices env_quotes_with_crypto_id ["bitcoin"]%string
         initial_world)
  = Raise ValueError.
Proof. vm_compute. reflexivity. Qed.

(** Two assets quoted in [usd]: one row per asset under the columns
    [crypto_id] and [usd]. *)
Example two_quotes_tabulated :
  fst (get_current_prices env_ok ["bitcoin"; "ethereum"]%string initial_world)
  = Return (mkQuoteTable ["crypto_id"; "usd"]%string
              [[CellText "bitcoin"; CellNumber (PyInt 100)];
               [CellText "ethereum"; CellNumber (PyInt 10)]]).
Proof. vm_compute. reflexivity. Qed.

Lemma C8_witness : nth_error (symbol eth_frame) 2 = Some "ETH"%string.
Proof.
  destruct (C8_symbol_is_key env_bitcoin_down scenario_map 3 initial_world _
              scenario_results "ETH" eth_frame scenario_run_eq eq_refl)
    as (_ & _ & _ & Hall & _).
  apply Hall. apply Nat.ltb_lt. reflexivity.
Defined.

Lemma C9_witness :
  exists out w',
    main env_offline initial_world = (Return tt, w')
    /\ stdout w' = out ++ [MsgNothingCollected]
    /\ files w' = files initial_world
    /\ clock_reads w' = clock_reads initial_world.
Proof.
  apply (proj2 (proj2 (C9_empty_collection_raises env_offline "crypto_data"
                         initial_world))).
  vm_compute. reflexivity.
Defined.

Lemma C10_witness :
  exists results w' dfb,
    get_multiple_cryptos env_ok shared_ticker_map 3 initial_world
    = (Return results, w')
    /\ fetch env_ok "ethereum" 3 = Return dfb
    /\ dict_get "X" results = Some (set_symbol dfb "X")
    /\ List.length results < List.length shared_ticker_map.
Proof.
  apply (C10_shared_ticker_overwrites env_ok [] [] [] "bitcoin" "ethereum" "X"
           3 initial_world).
  - intros crypto_id sym [H | [H | []]]; injection H as <- <-;
      eexists; split; vm_compute; reflexivity.
  - intros crypto_id [].
Defined.

(** ** Further properties of [get_historical_data] *)

Lemma delivered_outcome (E : environment) (crypto_id vs_currency : string)
    (days : Z) (w : world) (data : chart_payload) :
  chart_api E (chart_request crypto_id vs_currency days)
    = Delivered (mkResponse true (Some data)) ->
  fst (get_historical_data E crypto_id vs_currency days w) = chart_frame E data.
Proof.
  intros Hapi. rewrite get_historical_data_fst. unfold fetch_outcome.
  rewrite Hapi. reflexivity.
Qed.

Lemma items_at_short (items : list (list number)) :
  pairs items = false -> items_at 1 items = Raise IndexError.
Proof.
  induction items as [|item rest IH]; intros H; [discriminate|].
  unfold pairs in H. cbn [forallb] in H. cbn [items_at].
  destruct (nth_error item 1) as [x|] eqn:Hx; [|reflexivity].
  assert (Hlen : 1 < List.length item)
    by (apply nth_error_Some; congruence).
  apply Nat.leb_le in Hlen. rewrite Hlen in H. cbn [andb] in H.
  rewrite (IH H). reflexivity.
Qed.

(** X1.  Whenever [get_multiple_cryptos] returns, it has paused one second
    after each asset of the map, the failed ones and the last one included. *)
Theorem X1_one_second_per_asset (E : environment) (crypto_dict : dict string)
    (days : Z) (w w' : world) (results : dict DataFrame) :
  get_multiple_cryptos E crypto_dict days w = (Return results, w') ->
  slept w' = slept w + List.length crypto_dict.
Proof.
  intros Hrun.
  pose proof (loop_fst E crypto_dict days [] w) as Hfst.
  pose proof (loop_snd E crypto_dict days [] w) as Hsnd. cbv zeta in Hsnd.
  unfold get_multiple_cryptos in Hrun. rewrite Hrun in Hfst, Hsnd.
  cbn [fst snd] in *. destruct Hsnd as (_ & _ & Hs).
  destruct (Hs results (eq_sym Hfst)) as [_ Hslept]. exact Hslept.
Qed.

Lemma loop_raises (E : environment) (days : Z) (crypto_id sym : string)
    (l2 : list (string * string)) (e : exn) :
  fetch_outcome E crypto_id "usd" days = Raise e ->
  forall (l1 : list (string * string)),
    (forall id s, In (id, s) l1 ->
       exists df, fetch_outcome E id "usd" days = Return df) ->
    forall (acc : dict DataFrame) (w : world),
    exists w',
      get_multiple_cryptos_loop E (l1 ++ (crypto_id, sym) :: l2) days acc w
      = (Raise e, w')
      /\ sent w'
         = sent w
           ++ map (fun it => chart_request (fst it) "usd" days)
                (l1 ++ [(crypto_id, sym)])
      /\ slept w' = slept w + List.length l1
      /\ clock_reads w' = clock_reads w
      /\ files w' = files w.
Proof.
  intros Hraise. induction l1 as [|[id s] rest IH]; intros Hall acc w.
  - cbn [app]. rewrite loop_step.
    pose proof (get_historical_data_fst E crypto_id "usd" days
                  (snd (print (MsgFetching sym crypto_id) w))) as Hf.
    pose proof (get_historical_data_snd E crypto_id "usd" days
                  (snd (print (MsgFetching sym crypto_id) w))) as Hw.
    destruct (get_historical_data E crypto_id "usd" days _) as [o w'].
    cbn [fst snd] in *. cbv zeta in Hw. rewrite Hraise in Hf. subst o.
    destruct Hw as (Hsent & Hslept & Hclock & Hfiles).
    cbn [print snd sent slept clock_reads files] in *.
    exists w'. split; [reflexivity|]. cbn [map fst List.length].
    repeat split; try assumption. lia.
  - rewrite <- app_comm_cons, loop_step.
    destruct (Hall id s (or_introl eq_refl)) as [df Hdf].
    pose proof (get_historical_data_fst E id "usd" days
                  (snd (print (MsgFetching s id) w))) as Hf.
    pose proof (get_historical_data_snd E id "usd" days
                  (snd (print (MsgFetching s id) w))) as Hw.
    destruct (get_historical_data E id "usd" days _) as [o w1].
    cbn [fst snd] in *. cbv zeta in Hw. rewrite Hdf in Hf. subst o.
    destruct Hw as (Hsent & Hslept & Hclock & Hfiles).
    cbn [print snd sent slept clock_reads files] in *.
    destruct (IH (fun id' s' Hin => Hall id' s' (or_intror Hin))
                (loop_update s df acc) (snd (sleep 1 w1)))
      as (w' & Hrun & Hs & Hsl & Hc & Hfl).
    cbn [sleep snd sent slept clock_reads files] in *.
    exists w'. split; [exact Hrun|].
    split; [rewrite Hs, Hsent; cbn [map fst app];
            rewrite <- app_assoc; reflexivity|].
    split; [rewrite Hsl, Hslept; cbn [List.length]; lia|].
    split; congruence.
Qed.

(** X2.  An exception that leaves [get_historical_data] aborts the batch:
    if the assets before some asset all come back (failed or not) and the
    fetch of that asset raises, [get_multiple_cryptos] raises the same
    exception, having requested that asset and the ones before it and none
    of the later ones; what was collected so far is lost. *)
Theorem X2_raising_fetch_aborts_batch (E : environment)
    (l1 l2 : list (string * string)) (crypto_id sym : string) (days : Z)
    (e : exn) (w : world) :
  (forall id s, In (id, s) l1 -> exists df, fetch E id days = Return df) ->
  fetch E crypto_id days = Raise e ->
  exists w',
    get_multiple_cryptos E (l1 ++ (crypto_id, sym) :: l2) days w
    = (Raise e, w')
    /\ sent w'
       = sent w
         ++ map (fun it => chart_request (fst it) "usd" days)
              (l1 ++ [(crypto_id, sym)])
    /\ slept w' = slept w + List.length l1.
Proof.
  intros Hall Hraise. rewrite fetch_is_outcome in Hraise.
  destruct (loop_raises E days crypto_id sym l2 e Hraise l1) with
    (acc := @nil (string * DataFrame)) (w := w)
    as (w' & Hrun & Hs & Hsl & _).
  - intros id s Hin. destruct (Hall id s Hin) as [df Hdf].
    exists df. rewrite <- fetch_is_outcome. exact Hdf.
  - exists w'. unfold get_multiple_cryptos. auto.
Qed.

(** X3.  The arrays are not checked against each other before the frame is
    built: when the three arrays hold pairs but [market_caps] or
    [total_volumes] has another length than [prices], the [ValueError] of the
    frame constructor leaves [get_historical_data]. *)
Theorem X3_misaligned_arrays_raise (E : environment)
    (crypto_id vs_currency : string) (days : Z) (w : world)
    (data : chart_payload) (ps cs vs : list (list number)) :
  chart_api E (chart_request crypto_id vs_currency days)
    = Delivered (mkResponse true (Some data)) ->
  dict_get "prices" data = Some ps ->
  dict_get "market_caps" data = Some cs ->
  dict_get "total_volumes" data = Some vs ->
  pairs ps = true -> pairs cs = true -> pairs vs = true ->
  List.length cs <> List.length ps \/ List.length vs <> List.length ps ->
  fst (get_historical_data E crypto_id vs_currency days w) = Raise ValueError.
Proof.
  intros Hapi Hps Hcs Hvs Pp Pc Pv Hlen.
  rewrite (delivered_outcome _ _ _ _ _ _ Hapi).
  unfold chart_frame, getitem. rewrite Hps, Hcs, Hvs. cbn [obind].
  rewrite !items_at_pairs by (assumption || lia). cbn [obind].
  rewrite !length_column_at.
  destruct Hlen as [H | H]; apply Nat.eqb_neq in H; rewrite H;
    [|rewrite andb_false_r]; reflexivity.
Qed.

(** X4.  A price item with fewer than two entries is not skipped: the
    [IndexError] of [item[0]] or [item[1]] leaves [get_historical_data]. *)
Theorem X4_short_price_item_raises (E : environment)
    (crypto_id vs_currency : string) (days : Z) (w : world)
    (data : chart_payload) (ps : list (list number)) :
  chart_api E (chart_request crypto_id vs_currency days)
    = Delivered (mkResponse true (Some data)) ->
  dict_get "prices" data = Some ps ->
  pairs ps = false ->
  fst (get_historical_data E crypto_id vs_currency days w) = Raise IndexError.
Proof.
  intros Hapi Hps Hshort.
  rewrite (delivered_outcome _ _ _ _ _ _ Hapi).
  unfold chart_frame, getitem. rewrite Hps. cbn [obind].
  destruct (items_at 0 ps) as [ts|e] eqn:H0; cbn [obind].
  - rewrite (items_at_short _ Hshort). reflexivity.
  - rewrite (items_at_raises _ _ _ H0). reflexivity.
Qed.

(** X5.  Whatever comes back, one call of [get_historical_data] sends
    exactly one GET, to [/coins/<id>/market_chart] with the currency, the
    number of days and [interval=daily]; it does not retry, does not pause,
    reads no clock and writes no file. *)
Theorem X5_one_request_per_call (E : environment)
    (crypto_id vs_currency : string) (days : Z) (w : world) :
  sent (snd (get_historical_data E crypto_id vs_currency days w))
  = sent w
    ++ [mkRequest
          (COINGECKO_BASE_URL ++ "/coins/" ++ crypto_id ++ "/market_chart")
          [("vs_currency", PStr vs_currency); ("days", PInt days);
           ("interval", PStr "daily")]%string]
  /\ slept (snd (get_historical_data E crypto_id vs_currency days w)) = slept w
  /\ clock_reads (snd (get_historical_data E crypto_id vs_currency days w))
     = clock_reads w
  /\ files (snd (get_historical_data E crypto_id vs_currency days w))
     = files w.
Proof.
  pose proof (get_historical_data_snd E crypto_id vs_currency days w) as H.
  cbv zeta in H. exact H.
Qed.

(** X6.  The frame is assembled by position: for three arrays of N pairs
    whose price timestamps pandas converts and whose integer prices are
    within the [int64] range, the index holds the converted timestamps of the
    [prices] array, and the price, market-cap and volume columns are the
    columns pandas makes of the second entries of the three arrays, in order,
    N cells each; the timestamps of [market_caps] and [total_volumes] are not
    read. *)
Theorem X6_columns_by_position (E : environment)
    (crypto_id vs_currency : string) (days : Z) (w : world)
    (data : chart_payload) (N : nat) :
  chart_api E (chart_request crypto_id vs_currency days)
    = Delivered (mkResponse true (Some data)) ->
  aligned_chart E data N = true ->
  exists df ps cs vs pdt cdt vdt,
    fst (get_historical_data E crypto_id vs_currency days w) = Return df
    /\ dict_get "prices" data = Some ps
    /\ dict_get "market_caps" data = Some cs
    /\ dict_get "total_volumes" data = Some vs
    /\ to_datetime_column E (column_at 0 ps) = Return (index df)
    /\ sanitize_array (column_at 1 ps) = Return (pdt, price df)
    /\ sanitize_array (column_at 1 cs) = Return (cdt, market_cap df)
    /\ sanitize_array (column_at 1 vs) = Return (vdt, volume df)
    /\ List.length (index df) = N
    /\ List.length (price df) = N
    /\ List.length (market_cap df) = N
    /\ List.length (volume df) = N
    /\ columns df
       = ["price"; "market_cap"; "volume"; "returns"; "log_returns"]%string.
Proof.
  intros Hapi Hal. rewrite (delivered_outcome _ _ _ _ _ _ Hapi).
  destruct (chart_frame_aligned E data N Hal)
    as (df & ps & cs & vs & pdt & cdt & vdt & Hframe & Hps & Hcs & Hvs & Hidx
        & Hprice & Hcap & Hvol & Hlen & Hcols).
  assert (Lp : List.length ps = N /\ List.length cs = N /\ List.length vs = N).
  { unfold aligned_chart in Hal. rewrite Hps, Hcs, Hvs in Hal.
    repeat (apply andb_prop in Hal as [Hal ?]).
    apply Nat.eqb_eq in Hal.
    repeat match goal with
           | Heq : (_ =? _) = true |- _ => apply Nat.eqb_eq in Heq
           end.
    auto. }
  destruct Lp as (Lp & Lc & Lv).
  destruct (sanitize_array_cells _ _ _ Hprice) as (Hlp & _).
  destruct (sanitize_array_cells _ _ _ Hcap) as (Hlc & _).
  destruct (sanitize_array_cells _ _ _ Hvol) as (Hlv & _).
  rewrite length_column_at in Hlp, Hlc, Hlv.
  exists df, ps, cs, vs, pdt, cdt, vdt.
  repeat split; try assumption; congruence.
Qed.

(** X7.  A payload whose three arrays are present and empty is treated as
    a failure: [get_historical_data] returns a series without records, which
    [get_multiple_cryptos] skips. *)
Theorem X7_no_record_is_a_failure (E : environment) (crypto_id : string)
    (days : Z) (data : chart_payload) :
  chart_api E (chart_request crypto_id "usd" days)
    = Delivered (mkResponse true (Some data)) ->
  dict_get "prices" data = Some [] ->
  dict_get "market_caps" data = Some [] ->
  dict_get "total_volumes" data = Some [] ->
  fetch_failed E crypto_id days
  /\ forall sym w,
       fst (get_multiple_cryptos E [(crypto_id, sym)] days w) = Return [].
Proof.
  intros Hapi Hps Hcs Hvs.
  assert (Hf : exists df, fetch_outcome E crypto_id "usd" days = Return df
                          /\ empty df = true).
  { unfold fetch_outcome. rewrite Hapi. cbn [status_ok body].
    unfold chart_frame, getitem. rewrite Hps, Hcs, Hvs. cbn.
    eexists. split; reflexivity. }
  destruct Hf as (df & Hdf & He). split.
  - exists df. rewrite fetch_is_outcome. auto.
  - intros sym w. unfold get_multiple_cryptos. rewrite loop_fst.
    cbn [collected]. rewrite Hdf. cbn [obind].
    unfold loop_update. rewrite He. reflexivity.
Qed.




(** ** The order of the collected tickers *)

Lemma keys_dict_set_new {V : Type} (k : string) (v : V) (d : dict V) :
  ~ In k (keys d) -> keys (dict_set k v d) = keys d ++ [k].
Proof.
  induction d as [|[k' v'] d IH]; cbn; intros Hk; [reflexivity|].
  destruct (String.eqb_spec k' k) as [->|Hne]; [tauto|].
  cbn. f_equal. apply IH. tauto.
Qed.

Lemma succeeded_b_outcome (E : environment) (days : Z) (crypto_id sym : string)
    (df : DataFrame) :
  fetch_outcome E crypto_id "usd" days = Return df ->
  succeeded_b E days (crypto_id, sym) = negb (empty df).
Proof.
  intros H. unfold succeeded_b. cbn [fst]. rewrite fetch_is_outcome, H.
  reflexivity.
Qed.

Lemma collected_keys_in_order (E : environment) (days : Z)
    (items : list (string * string)) :
  NoDup (map snd items) ->
  forall acc res,
    (forall k, In k (map snd items) -> ~ In k (keys acc)) ->
    collected E items days acc = Return res ->
    keys res = keys acc ++ map snd (filter (succeeded_b E days) items).
Proof.
  induction items as [|[crypto_id sym] rest IH]; intros Hnd acc res Hfresh H.
  - injection H as <-. cbn. symmetry. apply app_nil_r.
  - rewrite collected_cons in H. cbn [map snd] in Hnd, Hfresh.
    apply NoDup_cons_iff in Hnd as [Hnotin Hnd].
    destruct (fetch_outcome E crypto_id "usd" days) as [df|e] eqn:Hf;
      [|discriminate].
    cbn [filter]. rewrite (succeeded_b_outcome _ _ _ _ _ Hf).
    unfold loop_update in H. destruct (negb (empty df)).
    + rewrite (IH Hnd _ _) with (2 := H).
      * rewrite keys_dict_set_new by (apply Hfresh; left; reflexivity).
        cbn [map snd]. rewrite <- app_assoc. reflexivity.
      * intros k Hk.
        rewrite keys_dict_set_new by (apply Hfresh; left; reflexivity).
        rewrite in_app_iff. intros [Hin | [<- | []]].
        -- apply (Hfresh k); [right; exact Hk | exact Hin].
        -- contradiction.
    + apply (IH Hnd _ _) with (2 := H).
      intros k Hk. apply Hfresh. right. exact Hk.
Qed.

(** X10.  When the tickers of the asset map are distinct, the keys of the
    returned collection are the tickers of the assets whose fetch succeeded,
    in the order of the map. *)
Theorem X10_keys_in_map_order (E : environment) (crypto_dict : dict string)
    (days : Z) (w w' : world) (results : dict DataFrame) :
  NoDup (values crypto_dict) ->
  get_multiple_cryptos E crypto_dict days w = (Return results, w') ->
  keys results = values (filter (succeeded_b E days) crypto_dict).
Proof.
  intros Hnd Hrun. apply get_multiple_cryptos_returns in Hrun.
  apply (collected_keys_in_order E days crypto_dict Hnd [] results).
  - intros k _ [].
  - exact Hrun.
Qed.

(** ** Further properties of [save_data] *)

Lemma combine_keys_values {V : Type} (d : dict V) :
  combine (keys d) (values d) = d.
Proof.
  unfold keys, values.
  induction d as [|[k v] d IH]; cbn; [reflexivity | rewrite IH; reflexivity].
Qed.

Lemma saved_paths (data_dict : dict DataFrame) (filename_prefix ts : string) :
  map fst (saved_files data_dict filename_prefix ts)
  = map (asset_path filename_prefix ts) (keys data_dict)
    ++ [combined_path filename_prefix ts].
Proof.
  unfold saved_files, keys. rewrite map_app, !map_map. reflexivity.
Qed.

(** The loop over a collection whose first unwritable file is that of
    [sym]. *)
Lemma save_data_loop_fails (E : environment) (filename_prefix ts sym : string)
    (df : DataFrame) (l2 : list (string * DataFrame)) :
  can_write E (asset_path filename_prefix ts sym) = false ->
  forall (l1 : list (string * DataFrame)),
    (forall it, In it l1 ->
       can_write E (asset_path filename_prefix ts (fst it)) = true) ->
    forall w,
    exists w',
      save_data_loop E filename_prefix ts (l1 ++ (sym, df) :: l2) w
      = (Raise OSError, w')
      /\ files w'
         = files w
           ++ map (fun it => (asset_path filename_prefix ts (fst it),
                              Csv (snd it))) l1
      /\ clock_reads w' = clock_reads w.
Proof.
  intros Hno. induction l1 as [|[s d] rest IH]; intros Hall w.
  - cbn [app save_data_loop]. unfold bind at 1. unfold to_csv at 1.
    fold (asset_path filename_prefix ts sym). rewrite Hno.
    exists w. cbn [map]. rewrite app_nil_r. auto.
  - rewrite <- app_comm_cons. cbn [save_data_loop].
    unfold bind at 1. unfold to_csv at 1.
    fold (asset_path filename_prefix ts s).
    pose proof (Hall (s, d) (or_introl eq_refl)) as Hhead.
    cbn [fst] in Hhead. rewrite Hhead.
    unfold bind at 1. cbn [print].
    match goal with
    | |- context [save_data_loop E filename_prefix ts _ ?w0] =>
        destruct (IH (fun it Hin => Hall it (or_intror Hin)) w0)
          as (w' & Hrun & Hfiles & Hclock)
    end.
    rewrite Hrun. exists w'. split; [reflexivity|].
    cbn [files clock_reads] in Hfiles, Hclock.
    split; [|exact Hclock].
    rewrite Hfiles. cbn [map fst snd]. rewrite <- app_assoc. reflexivity.
Qed.

(** X11.  A write failure is not handled and leaves the earlier files
    behind: when the file of some asset cannot be opened while those of the
    assets before it can, [save_data] raises [OSError], the files of the
    earlier assets stay written, and neither the later files nor the combined
    file are written. *)
Theorem X11_write_failure_leaves_partial_output (E : environment)
    (l1 l2 : list (string * DataFrame)) (sym : string) (df : DataFrame)
    (filename_prefix : string) (w : world) :
  (forall it, In it l1 ->
     can_write E (asset_path filename_prefix
                    (strftime (now E (clock_reads w))) (fst it)) = true) ->
  can_write E (asset_path filename_prefix
                 (strftime (now E (clock_reads w))) sym) = false ->
  exists w',
    save_data E (l1 ++ (sym, df) :: l2) filename_prefix w = (Raise OSError, w')
    /\ files w'
       = files w
         ++ map (fun it =>
                   (asset_path filename_prefix
                      (strftime (now E (clock_reads w))) (fst it),
                    Csv (snd it))) l1.
Proof.
  intros Hall Hno. unfold save_data. unfold bind at 1. cbn [datetime_now].
  unfold bind at 1.
  match goal with
  | |- context [save_data_loop E ?p ?ts _ ?w0] =>
      destruct (save_data_loop_fails E p ts sym df l2 Hno l1 Hall w0)
        as (w' & Hrun & Hfiles & _)
  end.
  rewrite Hrun. exists w'. split; [reflexivity | exact Hfiles].
Qed.

(** *** File names of one call *)

Lemma append_inj_r (x y1 y2 : string) :
  (x ++ y1 = x ++ y2)%string -> y1 = y2.
Proof.
  induction x as [|c x IH]; cbn; intros H; [exact H|].
  injection H as H. apply IH. exact H.
Qed.

Lemma asset_filename_inj (filename_prefix ts s1 s2 : string) :
  asset_filename filename_prefix s1 ts = asset_filename filename_prefix s2 ts ->
  s1 = s2.
Proof.
  unfold asset_filename. intros H.
  apply append_inj_r in H. cbn in H. injection H as H.
  apply append_inj_l in H. exact H.
Qed.

Lemma combined_is_asset_filename (filename_prefix ts : string) :
  combined_filename filename_prefix ts
  = asset_filename filename_prefix "combined" ts.
Proof. reflexivity. Qed.

Lemma os_path_join_raw (b : string) :
  os_path_join RAW_DATA_DIR b
  = if startswith_sep b then b else ("data/raw/" ++ b)%string.
Proof.
  unfold os_path_join. destruct (startswith_sep b); reflexivity.
Qed.

Lemma os_path_join_raw_inj (b1 b2 : string) :
  os_path_join RAW_DATA_DIR b1 = os_path_join RAW_DATA_DIR b2 -> b1 = b2.
Proof.
  rewrite !os_path_join_raw.
  destruct (startswith_sep b1) eqn:H1, (startswith_sep b2) eqn:H2; intros H.
  - exact H.
  - subst b1. discriminate H1.
  - subst b2. discriminate H2.
  - cbn in H. congruence.
Qed.

Lemma asset_path_inj (filename_prefix ts s1 s2 : string) :
  asset_path filename_prefix ts s1 = asset_path filename_prefix ts s2 ->
  s1 = s2.
Proof.
  unfold asset_path. intros H. apply os_path_join_raw_inj in H.
  apply asset_filename_inj in H. exact H.
Qed.

Lemma combined_path_is_asset_path (filename_prefix ts : string) :
  combined_path filename_prefix ts = asset_path filename_prefix ts "combined".
Proof. reflexivity. Qed.

(** X12.  Within one call of [save_data] on a collection (whose tickers,
    being the keys of a dictionary, are distinct), no file is written twice
    exactly when no ticker is the word [combined]: the per-asset file of such
    a ticker has the name of the combined file, which then replaces it. *)
Theorem X12_names_collide_only_on_combined (data_dict : dict DataFrame)
    (filename_prefix ts : string) :
  NoDup (keys data_dict) ->
  (NoDup (map fst (saved_files data_dict filename_prefix ts))
   <-> ~ In "combined"%string (keys data_dict)).
Proof.
  intros Hnd. rewrite saved_paths. split.
  - intros Hpaths Hin.
    apply NoDup_remove in Hpaths as [_ Hnot]. apply Hnot.
    rewrite app_nil_r, combined_path_is_asset_path.
    apply in_map. exact Hin.
  - intros Hno. apply NoDup_app.
    + apply NoDup_map_NoDup_ForallPairs; [|exact Hnd].
      intros s1 s2 _ _ H. apply (asset_path_inj _ _ _ _ H).
    + constructor; [intros [] | constructor].
    + intros p Hp [<- | []]. apply in_map_iff in Hp as [s [Hs Hin]].
      rewrite combined_path_is_asset_path in Hs.
      apply asset_path_inj in Hs. subst s. contradiction.
Qed.

Lemma startswith_sep_filename (filename_prefix rest : string) :
  startswith_sep (filename_prefix ++ "_" ++ rest)
  = startswith_sep filename_prefix.
Proof.
  destruct filename_prefix; reflexivity.
Qed.

(** X13.  Where the files go depends on the prefix: with a prefix that does
    not start with a slash every file of the call lies in [data/raw/], and
    with one that does, [os.path.join] drops the directory and every file is
    written at the absolute path the prefix starts. *)
Theorem X13_prefix_decides_directory (data_dict : dict DataFrame)
    (filename_prefix ts : string) :
  (startswith_sep filename_prefix = false ->
   map fst (saved_files data_dict filename_prefix ts)
   = map (fun sym =>
            ("data/raw/" ++ asset_filename filename_prefix sym ts)%string)
         (keys data_dict)
     ++ [("data/raw/" ++ combined_filename filename_prefix ts)%string])
  /\ (startswith_sep filename_prefix = true ->
      map fst (saved_files data_dict filename_prefix ts)
      = map (fun sym => asset_filename filename_prefix sym ts)
            (keys data_dict)
        ++ [combined_filename filename_prefix ts]).
Proof.
  rewrite saved_paths. unfold combined_path.
  split; intros Hp; f_equal.
  - apply map_ext. intros sym. unfold asset_path.
    rewrite os_path_join_raw. unfold asset_filename.
    rewrite startswith_sep_filename, Hp. reflexivity.
  - rewrite os_path_join_raw. unfold combined_filename.
    change (filename_prefix ++ "_combined_" ++ ts ++ ".csv")%string
      with (filename_prefix ++ "_" ++ ("combined_" ++ ts ++ ".csv"))%string.
    rewrite startswith_sep_filename, Hp. reflexivity.
  - apply map_ext. intros sym. unfold asset_path.
    rewrite os_path_join_raw. unfold asset_filename.
    rewrite startswith_sep_filename, Hp. reflexivity.
  - rewrite os_path_join_raw. unfold combined_filename.
    change (filename_prefix ++ "_combined_" ++ ts ++ ".csv")%string
      with (filename_prefix ++ "_" ++ ("combined_" ++ ts ++ ".csv"))%string.
    rewrite startswith_sep_filename, Hp. reflexivity.
Qed.

(** X14.  On a non-empty collection whose files can be written, the last
    file [save_data] writes is the combined one, and it holds the collection
    itself: every series under its own ticker, in the order of the
    dictionary; before it comes one file per asset, in the same order. *)
Theorem X14_combined_file_holds_collection (E : environment)
    (data_dict : dict DataFrame) (filename_prefix : string) (w : world) :
  data_dict <> [] ->
  (forall p, can_write E p = true) ->
  exists w',
    save_data E data_dict filename_prefix w = (Return tt, w')
    /\ files w'
       = files w
         ++ map (fun it =>
                   (asset_path filename_prefix
                      (strftime (now E (clock_reads w))) (fst it),
                    Csv (snd it))) data_dict
         ++ [(combined_path filename_prefix
                (strftime (now E (clock_reads w))),
              CsvCombined data_dict)].
Proof.
  intros Hne Hfs.
  destruct (save_data_run E data_dict filename_prefix w Hfs Hne) as [out H].
  cbv zeta in H. rewrite H. eexists. split; [reflexivity|].
  cbn [files]. unfold saved_files. rewrite combine_keys_values. reflexivity.
Qed.

(** ** The timestamp of a call *)

Lemma append_prefix_inj (x1 x2 y1 y2 : string) :
  String.length x1 = String.length x2 ->
  (x1 ++ y1 = x2 ++ y2)%string -> x1 = x2 /\ y1 = y2.
Proof.
  revert x2. induction x1 as [|c x1 IH]; intros [|c2 x2] Hlen H;
    cbn in Hlen; try discriminate.
  - split; [reflexivity | exact H].
  - cbn in H. injection H as -> H. injection Hlen as Hlen.
    destruct (IH x2 Hlen H) as [-> ->]. split; reflexivity.
Qed.

Lemma digit_inj (n m : N) : digit n = digit m -> (n mod 10 = m mod 10)%N.
Proof.
  unfold digit. intros H. apply (f_equal N_of_ascii) in H.
  pose proof (N.mod_upper_bound n 10 ltac:(discriminate)).
  pose proof (N.mod_upper_bound m 10 ltac:(discriminate)).
  rewrite !N_ascii_embedding in H by lia. lia.
Qed.

Lemma zero_padded_inj (width : nat) :
  forall n m : N,
    zero_padded width n = zero_padded width m ->
    (n mod 10 ^ N.of_nat width = m mod 10 ^ N.of_nat width)%N.
Proof.
  induction width as [|wd IH]; intros n m H.
  - cbn. rewrite !N.mod_1_r. reflexivity.
  - cbn [zero_padded] in H.
    apply append_prefix_inj in H as [Hhigh Hlow];
      [|rewrite !length_zero_padded; reflexivity].
    injection Hlow as Hlow. apply digit_inj in Hlow. apply IH in Hhigh.
    replace (N.of_nat (S wd)) with (N.succ (N.of_nat wd)) by lia.
    rewrite N.pow_succ_r', !N.Div0.mod_mul_r.
    rewrite Hhigh, Hlow. reflexivity.
Qed.

Lemma zero_padded_small_inj (width : nat) (n m : N) :
  (n < 10 ^ N.of_nat width)%N -> (m < 10 ^ N.of_nat width)%N ->
  zero_padded width n = zero_padded width m -> n = m.
Proof.
  intros Hn Hm H. apply zero_padded_inj in H.
  rewrite !N.mod_small in H by assumption. exact H.
Qed.

(** X15.  The timestamp tells two clock readings apart whenever they
    differ: for readings in Python's ranges with a four-digit year,
    [strftime("%Y%m%d_%H%M%S")] gives different strings for different
    seconds. *)
Theorem X15_timestamp_distinguishes_seconds (d1 d2 : datetime) :
  valid_datetime d1 = true -> valid_datetime d2 = true ->
  d1 <> d2 -> strftime d1 <> strftime d2.
Proof.
  intros V1 V2 Hne H. apply Hne. clear Hne.
  unfold valid_datetime in V1, V2.
  repeat (apply andb_prop in V1 as [V1 ?]).
  repeat (apply andb_prop in V2 as [V2 ?]).
  repeat match goal with
         | Hb : (_ <=? _)%N = true |- _ => apply N.leb_le in Hb
         end.
  unfold strftime in H.
  apply append_prefix_inj in H as [Hy H];
    [|rewrite !length_zero_padded; reflexivity].
  apply append_prefix_inj in H as [Hm H];
    [|rewrite !length_zero_padded; reflexivity].
  apply append_prefix_inj in H as [Hd H];
    [|rewrite !length_zero_padded; reflexivity].
  apply append_inj_r in H.
  apply append_prefix_inj in H as [Hh H];
    [|rewrite !length_zero_padded; reflexivity].
  apply append_prefix_inj in H as [Hmi Hs];
    [|rewrite !length_zero_padded; reflexivity].
  apply zero_padded_small_inj in Hy, Hm, Hd, Hh, Hmi, Hs;
    try (cbn; lia).
  destruct d1, d2. cbn in *. congruence.
Qed.

(** ** Further properties of [main] *)

Lemma iloc_neg_in_range {A : Type} (s : list A) (k : nat) :
  1 <= k <= List.length s -> exists x, iloc_neg s k = Return x.
Proof.
  intros [H1 H2]. unfold iloc_neg.
  apply Nat.leb_le in H2 as Hb. rewrite Hb.
  destruct (nth_error s (List.length s - k)) as [x|] eqn:Hx.
  - exists x. reflexivity.
  - apply nth_error_None in Hx. lia.
Qed.

Lemma iloc_neg_out_of_range {A : Type} (s : list A) (k : nat) :
  List.length s < k -> iloc_neg s k = Raise IndexError.
Proof.
  intros H. unfold iloc_neg.
  destruct (Nat.leb_spec k (List.length s)); [lia | reflexivity].
Qed.

Lemma iloc_neg_raises {A : Type} (s : list A) (k : nat) (e : exn) :
  iloc_neg s k = Raise e -> e = IndexError.
Proof.
  unfold iloc_neg. destruct (k <=? List.length s);
    [destruct (nth_error s _)|]; congruence.
Qed.

(** The preview prints and does nothing else; it stops with [IndexError]
    at the first series with fewer than thirty prices. *)
Lemma preview_run (items : list (string * DataFrame)) :
  forall w,
    let r := preview items w in
    sent (snd r) = sent w /\ slept (snd r) = slept w
    /\ clock_reads (snd r) = clock_reads w /\ files (snd r) = files w
    /\ ((forall it, In it items -> 30 <= List.length (price (snd it))) ->
        fst r = Return tt)
    /\ ((exists it, In it items /\ List.length (price (snd it)) < 30) ->
        fst r = Raise IndexError).
Proof.
  induction items as [|[sym df] rest IH]; intros w; cbv zeta.
  - cbn. repeat split; try reflexivity. intros (it & [] & _).
  - cbn [preview]. unfold bind at 1. cbn [print]. unfold bind at 1.
    unfold lift at 1.
    destruct (iloc_neg (price df) 1) as [last|e1] eqn:H1.
    2:{ cbn [fst snd sent slept clock_reads files].
        repeat split; try reflexivity.
        - intros Hall. specialize (Hall (sym, df) (or_introl eq_refl)).
          cbn [snd] in Hall.
          destruct (iloc_neg_in_range (price df) 1 ltac:(lia)) as [x Hx].
          congruence.
        - intros _. rewrite (iloc_neg_raises _ _ _ H1). reflexivity. }
    unfold bind at 1. cbn [print]. unfold bind at 1. unfold lift at 1.
    unfold bind at 1. unfold lift at 1.
    destruct (iloc_neg (price df) 30) as [before|e2] eqn:H30.
    2:{ cbn [fst snd sent slept clock_reads files].
        repeat split; try reflexivity.
        - intros Hall. specialize (Hall (sym, df) (or_introl eq_refl)).
          cbn [snd] in Hall.
          destruct (iloc_neg_in_range (price df) 30 ltac:(lia)) as [x Hx].
          congruence.
        - intros _. rewrite (iloc_neg_raises _ _ _ H30). reflexivity. }
    unfold bind at 1. cbn [print]. unfold bind at 1. cbn [print].
    match goal with
    | |- context [preview rest ?w0] =>
        specialize (IH w0); cbv zeta in IH;
        destruct IH as (Hs & Hsl & Hc & Hf & Hok & Hko)
    end.
    cbn [sent slept clock_reads files] in Hs, Hsl, Hc, Hf.
    split; [exact Hs|]. split; [exact Hsl|]. split; [exact Hc|].
    split; [exact Hf|]. split.
    + intros Hall. apply Hok. intros it Hin. apply Hall. right. exact Hin.
    + intros (it & [<- | Hin] & Hlt).
      * cbn [snd] in Hlt. exfalso.
        assert (Hlen : List.length (price df) < 30) by exact Hlt.
        rewrite (iloc_neg_out_of_range _ _ Hlen) in H30. discriminate.
      * apply Hko. exists it. auto.
Qed.

Lemma fetched_price_length (E : environment) (crypto_id vs_currency : string)
    (days : Z) (df : DataFrame) :
  fetch_outcome E crypto_id vs_currency days = Return df ->
  List.length (price df) = len df.
Proof.
  intros H. destruct (fetch_outcome_frame _ _ _ _ _ H) as [-> | [data Hd]].
  - reflexivity.
  - destruct (chart_frame_shape E data df Hd) as (qs & Hp & Hl & _).
    unfold len. symmetry. exact Hl.
Qed.

Lemma in_dict_set {V : Type} (k : string) (v : V) (d : dict V)
    (it : string * V) :
  In it (dict_set k v d) -> it = (k, v) \/ In it d.
Proof.
  induction d as [|[k' v'] d IH]; cbn.
  - intros [<- | []]. left. reflexivity.
  - destruct (String.eqb k' k); cbn.
    + intros [<- | H]; [left; reflexivity | right; right; exact H].
    + intros [<- | H]; [right; left; reflexivity|].
      destruct (IH H) as [-> | Hin]; [left; reflexivity | right; right; exact Hin].
Qed.

(** Each collected series has as many prices as records. *)
Lemma collected_price_length (E : environment) (days : Z)
    (items : list (string * string)) :
  forall acc res,
    collected E items days acc = Return res ->
    (forall it, In it acc -> List.length (price (snd it)) = len (snd it)) ->
    forall it, In it res -> List.length (price (snd it)) = len (snd it).
Proof.
  induction items as [|[crypto_id sym] rest IH]; intros acc res H Hacc.
  - injection H as <-. exact Hacc.
  - rewrite collected_cons in H.
    destruct (fetch_outcome E crypto_id "usd" days) as [df|e] eqn:Hf;
      [|discriminate].
    apply (IH _ _ H). intros it Hin. unfold loop_update in Hin.
    destruct (negb (empty df)); [|apply Hacc; exact Hin].
    apply in_dict_set in Hin as [-> | Hin]; [|apply Hacc; exact Hin].
    cbn [snd set_symbol price]. rewrite len_set_symbol.
    apply (fetched_price_length _ _ _ _ _ Hf).
Qed.

(** What [main] does once the collection is known. *)
Lemma main_run (E : environment) (w : world) :
  exists w1,
    clock_reads w1 = clock_reads w /\ files w1 = files w
    /\ (forall res,
          collected E CRYPTOCURRENCIES DEFAULT_DAYS [] = Return res ->
          sent w1
          = sent w
            ++ map (fun it => chart_request (fst it) "usd" DEFAULT_DAYS)
                 CRYPTOCURRENCIES
          /\ slept w1 = slept w + List.length CRYPTOCURRENCIES)
    /\ main E w
       = match collected E CRYPTOCURRENCIES DEFAULT_DAYS [] with
         | Return [] => print MsgNothingCollected w1
         | Return data =>
             (print (MsgCollected (List.length data)) ;;;
              preview data ;;;
              save_data E data "crypto_data" ;;;
              print MsgDone) w1
         | Raise e => (Raise e, w1)
         end.
Proof.
  unfold main. unfold bind at 1. cbn [print].
  unfold bind at 1. cbn [print]. unfold bind at 1. cbn [print].
  unfold bind at 1. unfold get_multiple_cryptos.
  match goal with
  | |- context [get_multiple_cryptos_loop E ?l ?d ?r ?w0] =>
      pose proof (loop_fst E l d r w0) as Hfst;
      pose proof (loop_snd E l d r w0) as Hsnd;
      destruct (get_multiple_cryptos_loop E l d r w0) as [o w1]
  end.
  cbn [fst snd] in *. cbv zeta in Hsnd. subst o.
  destruct Hsnd as (Hclock & Hfiles & Hsent).
  cbn [print sent slept stdout clock_reads files] in *.
  exists w1. split; [exact Hclock|]. split; [exact Hfiles|].
  split; [exact Hsent|].
  destruct (collected E CRYPTOCURRENCIES DEFAULT_DAYS []) as [[|it data]|e];
    reflexivity.
Qed.

(** X16.  The preview of [main] reads the price thirty records back
    without checking the length: when some collected series has fewer than
    thirty records, [main] stops with [IndexError] before [save_data] is
    called, and no file is written. *)
Theorem X16_main_needs_thirty_records (E : environment) (w : world)
    (data : dict DataFrame) :
  fst (get_multiple_cryptos E CRYPTOCURRENCIES DEFAULT_DAYS w) = Return data ->
  (exists sym df, In (sym, df) data /\ len df < 30) ->
  exists w',
    main E w = (Raise IndexError, w')
    /\ files w' = files w
    /\ clock_reads w' = clock_reads w.
Proof.
  intros Hdata (sym & df & Hin & Hlt).
  unfold get_multiple_cryptos in Hdata. rewrite loop_fst in Hdata.
  destruct (main_run E w) as (w1 & Hclock & Hfiles & _ & Hmain).
  rewrite Hdata in Hmain.
  destruct data as [|it0 rest]; [destruct Hin|].
  set (data := it0 :: rest) in *.
  assert (Hshort : exists it, In it data /\ List.length (price (snd it)) < 30).
  { exists (sym, df). split; [exact Hin|].
    pose proof (collected_price_length E DEFAULT_DAYS CRYPTOCURRENCIES [] data
                  Hdata (fun it (H : In it []) => match H with end)
                  (sym, df) Hin) as Hlen.
    cbn [snd] in *. lia. }
  unfold bind at 1 in Hmain. cbn [print] in Hmain.
  unfold bind at 1 in Hmain.
  match type of Hmain with
  | context [preview data ?w0] =>
      pose proof (preview_run data w0) as Hp; cbv zeta in Hp;
      destruct Hp as (_ & _ & Hc & Hf & _ & Hko);
      specialize (Hko Hshort);
      destruct (preview data w0) as [o w2]
  end.
  cbn [fst snd clock_reads files] in *. subst o.
  exists w2. split; [exact Hmain|]. split; congruence.
Qed.

(** X17.  When every collected series has at least thirty records and the
    files can be written, [main] ends normally: it reads the clock once,
    writes the files of one [save_data] call under the prefix [crypto_data]
    and prints the closing line. *)
Theorem X17_main_saves_collection (E : environment) (w : world)
    (data : dict DataFrame) :
  fst (get_multiple_cryptos E CRYPTOCURRENCIES DEFAULT_DAYS w) = Return data ->
  data <> [] ->
  (forall sym df, In (sym, df) data -> 30 <= len df) ->
  (forall p, can_write E p = true) ->
  exists out w',
    main E w = (Return tt, w')
    /\ stdout w' = out ++ [MsgDone]
    /\ clock_reads w' = S (clock_reads w)
    /\ files w'
       = files w
         ++ saved_files data "crypto_data" (strftime (now E (clock_reads w))).
Proof.
  intros Hdata Hne Hlong Hfs.
  unfold get_multiple_cryptos in Hdata. rewrite loop_fst in Hdata.
  destruct (main_run E w) as (w1 & Hclock & Hfiles & _ & Hmain).
  rewrite Hdata in Hmain.
  destruct data as [|it0 rest]; [contradiction|].
  set (data := it0 :: rest) in *.
  assert (Hall : forall it, In it data -> 30 <= List.length (price (snd it))).
  { intros [sym df] Hin.
    pose proof (collected_price_length E DEFAULT_DAYS CRYPTOCURRENCIES [] data
                  Hdata (fun it (H : In it []) => match H with end)
                  (sym, df) Hin) as Hlen.
    pose proof (Hlong sym df Hin). cbn [snd] in *. lia. }
  unfold bind at 1 in Hmain. cbn [print] in Hmain.
  unfold bind at 1 in Hmain.
  match type of Hmain with
  | context [preview data ?w0] =>
      pose proof (preview_run data w0) as Hp; cbv zeta in Hp;
      destruct Hp as (_ & _ & Hc & Hf & Hok & _);
      specialize (Hok Hall);
      destruct (preview data w0) as [o w2]
  end.
  cbn [fst snd clock_reads files] in *. subst o.
  unfold bind at 1 in Hmain.
  destruct (save_data_run E data "crypto_data" w2 Hfs Hne) as [out Hsave].
  cbv zeta in Hsave. rewrite Hsave in Hmain. cbn [print] in Hmain.
  do 2 eexists. split; [exact Hmain|]. cbn [stdout clock_reads files].
  split; [reflexivity|]. split; [congruence|].
  rewrite Hc, Hf, Hclock, Hfiles. reflexivity.
Qed.

Lemma collected_all_failed (E : environment) (days : Z)
    (items : list (string * string)) :
  (forall rq, transport_failed (chart_api E rq) = true) ->
  forall acc, collected E items days acc = Return acc.
Proof.
  intros Hdown. induction items as [|[crypto_id sym] rest IH]; intros acc.
  - reflexivity.
  - rewrite collected_cons.
    assert (Hf : fetch_outcome E crypto_id "usd" days = Return pd_DataFrame).
    { unfold fetch_outcome.
      specialize (Hdown (chart_request crypto_id "usd" days)).
      destruct (chart_api E _) as [|[ok [data|]]]; cbn in *; try reflexivity;
        destruct ok; cbn in *; try reflexivity; discriminate. }
    rewrite Hf. unfold loop_update. cbn. apply IH.
Qed.

(** X18.  When no chart request gets a usable response, [main] still asks
    for each configured asset in turn, one second apart, then reports that
    nothing was collected: it raises nothing and writes no file. *)
Theorem X18_main_without_network (E : environment) (w : world) :
  (forall rq, transport_failed (chart_api E rq) = true) ->
  exists out w',
    main E w = (Return tt, w')
    /\ stdout w' = out ++ [MsgNothingCollected]
    /\ sent w'
       = sent w
         ++ map (fun it => chart_request (fst it) "usd" DEFAULT_DAYS)
              CRYPTOCURRENCIES
    /\ slept w' = slept w + List.length CRYPTOCURRENCIES
    /\ files w' = files w.
Proof.
  intros Hdown.
  pose proof (collected_all_failed E DEFAULT_DAYS CRYPTOCURRENCIES Hdown [])
    as Hnone.
  destruct (main_run E w) as (w1 & _ & Hfiles & Hsent & Hmain).
  rewrite Hnone in Hmain. destruct (Hsent [] Hnone) as [Hs Hsl].
  do 2 eexists. split; [exact Hmain|]. cbn [stdout sent slept files].
  split; [reflexivity|]. auto.
Qed.

(** ** The further properties on the scenarios *)


Lemma X1_witness :
  slept (snd scenario_run) = slept initial_world + List.length scenario_map.
Proof.
  apply (X1_one_second_per_asset env_bitcoin_down scenario_map 3 initial_world
           (snd scenario_run) scenario_results scenario_run_eq).
Defined.

Lemma X2_witness :
  exists w',
    get_multiple_cryptos env_ethereum_malformed scenario3_map 3 initial_world
    = (Raise KeyError, w')
    /\ List.length (sent w') = 2.
Proof.
  destruct (X2_raising_fetch_aborts_batch env_ethereum_malformed
              [("bitcoin", "BTC")]%string [("cardano", "ADA")]%string
              "ethereum" "ETH" 3 KeyError initial_world)
    as (w' & Hrun & Hsent & _).
  - intros id s [H | []]. injection H as <- <-.
    eexists. vm_compute. reflexivity.
  - vm_compute. reflexivity.
  - exists w'. split; [exact Hrun|]. rewrite Hsent. reflexivity.
Defined.

Lemma X3_witness :
  fst (get_historical_data (env_with chart_misaligned) "bitcoin" "usd" 2
         initial_world)
  = Raise ValueError.
Proof.
  apply (X3_misaligned_arrays_raise (env_with chart_misaligned) "bitcoin" "usd"
           2 initial_world chart_misaligned
           (array_of [[1; 100]; [2; 110]]%Z) (array_of [[1; 5]]%Z)
           (array_of [[1; 8]; [2; 9]]%Z));
    try reflexivity.
  left. discriminate.
Defined.

Lemma X4_witness :
  fst (get_historical_data (env_with chart_short) "bitcoin" "usd" 2
         initial_world)
  = Raise IndexError.
Proof.
  apply (X4_short_price_item_raises (env_with chart_short) "bitcoin" "usd" 2
           initial_world chart_short (array_of [[1; 100]; [2]]%Z));
    reflexivity.
Defined.

Lemma X6_witness :
  exists df,
    fst (get_historical_data env_ok "ethereum" "usd" 3 initial_world)
    = Return df
    /\ sanitize_array [PyInt 5; PyInt 6; PyInt 7]
       = Return (dtype_int64, market_cap df)
    /\ List.length (index df) = 3.
Proof.
  destruct (X6_columns_by_position env_ok "ethereum" "usd" 3 initial_world
              chart3 3 eq_refl eq_refl)
    as (df & ps & cs & vs & pdt & cdt & vdt & Hrun & _ & Hcs & _ & _ & _
        & Hcap & _ & Hlen & _).
  injection Hcs as <-.
  exists df. split; [exact Hrun|]. split; [|exact Hlen].
  change (column_at 1 _) with [PyInt 5; PyInt 6; PyInt 7] in Hcap.
  rewrite Hcap.
  change (sanitize_array [PyInt 5; PyInt 6; PyInt 7])
    with (Return (dtype_int64, [VInt 5; VInt 6; VInt 7])) in Hcap.
  injection Hcap as <- _. reflexivity.
Defined.

Lemma X7_witness :
  fetch_failed (env_with chart_no_record) "bitcoin" 3
  /\ fst (get_multiple_cryptos (env_with chart_no_record)
            [("bitcoin", "BTC")]%string 3 initial_world)
     = Return [].
Proof.
  destruct (X7_no_record_is_a_failure (env_with chart_no_record) "bitcoin" 3
              chart_no_record eq_refl eq_refl eq_refl eq_refl)
    as [Hfail Hskip].
  split; [exact Hfail | apply Hskip].
Defined.



(** Rounding separates the two derived columns: when the price falls from
    2^60 to 1 the quotient is 2^-60, [returns] is exactly -1.0 and
    [log_returns] is the logarithm of 2^-60, not that of 1 + [returns]. *)
Example steep_fall_rounds_returns :
  nth_error (returns (frame_of chart_steep_fall)) 1
  = Some (S754_finite true 4503599627370496 (-52))
  /\ nth_error (log_returns (frame_of chart_steep_fall)) 1
     = Some (Ln (S754_finite false 4503599627370496 (-112))).
Proof. vm_compute. split; reflexivity. Qed.

(** Integer prices beyond 64 bits make a column of Python objects: the
    [TypeError] of [np.log] leaves [get_historical_data]. *)
Example big_integer_prices_raise :
  fst (get_historical_data (env_with chart_big_integers) "bitcoin" "usd" 2
         initial_world)
  = Raise TypeError.
Proof. vm_compute. reflexivity. Qed.

(** The literal 1e999 is read as an infinity: the series is returned, with
    an infinite return at the index of that price. *)
Example overflowing_literal_is_infinite :
  match fst (get_historical_data (env_with chart_overflowing_literal)
               "bitcoin" "usd" 2 initial_world) with
  | Return df =>
      nth_error (price df) 1 = Some (VFloat (S754_infinity false))
      /\ nth_error (returns df) 1 = Some (S754_infinity false)
      /\ nth_error (log_returns df) 1 = Some LogPosInf
  | Raise _ => False
  end.
Proof. vm_compute. repeat split. Qed.

Lemma X10_witness :
  keys scenario_results
  = values (filter (succeeded_b env_bitcoin_down 3) scenario_map).
Proof.
  apply (X10_keys_in_map_order env_bitcoin_down scenario_map 3 initial_world
           (snd scenario_run) scenario_results).
  - repeat constructor; cbn; intuition discriminate.
  - exact scenario_run_eq.
Defined.

Lemma X11_witness :
  exists w',
    save_data env_eth_readonly two_frames "crypto_data" initial_world
    = (Raise OSError, w')
    /\ map fst (files w')
       = ["data/raw/crypto_data_BTC_20240102_030405.csv"%string].
Proof.
  destruct (X11_write_failure_leaves_partial_output env_eth_readonly
              [("BTC", frame3)]%string [] "ETH" frame3 "crypto_data"
              initial_world)
    as (w' & Hrun & Hfiles).
  - intros it [<- | []]. vm_compute. reflexivity.
  - vm_compute. reflexivity.
  - exists w'. split; [exact Hrun|]. rewrite Hfiles. vm_compute. reflexivity.
Defined.

Lemma X12_witness :
  NoDup (map fst (saved_files scenario_results "crypto_data"
                    "20240102_030405")).
Proof.
  apply (X12_names_collide_only_on_combined scenario_results "crypto_data"
           "20240102_030405").
  - vm_compute. repeat constructor; cbn; intuition discriminate.
  - vm_compute. intuition discriminate.
Defined.

Lemma X13_witness :
  map fst (saved_files scenario_results "crypto_data" "20240102_030405")
  = map (fun sym =>
           ("data/raw/" ++ asset_filename "crypto_data" sym "20240102_030405")
             %string)
        (keys scenario_results)
    ++ [("data/raw/" ++ combined_filename "crypto_data" "20240102_030405")
          %string].
Proof.
  apply (proj1 (X13_prefix_decides_directory scenario_results "crypto_data"
                  "20240102_030405")).
  reflexivity.
Defined.

Lemma X14_witness :
  exists w',
    save_data env_ok scenario_results "crypto_data" initial_world
    = (Return tt, w')
    /\ List.length (files w') = 2.
Proof.
  destruct (X14_combined_file_holds_collection env_ok scenario_results
              "crypto_data" initial_world)
    as (w' & Hrun & Hfiles).
  - intros H. vm_compute in H. discriminate H.
  - intros p. reflexivity.
  - exists w'. split; [exact Hrun|]. rewrite Hfiles. vm_compute. reflexivity.
Defined.

Lemma X15_witness : strftime (daily_clock 0) <> strftime (daily_clock 1).
Proof.
  apply X15_timestamp_distinguishes_seconds; try reflexivity.
  intros H. vm_compute in H. discriminate H.
Defined.

Lemma config_results_ok_run :
  fst (get_multiple_cryptos env_ok CRYPTOCURRENCIES DEFAULT_DAYS initial_world)
  = Return (config_results env_ok).
Proof. vm_compute. reflexivity. Qed.

Lemma config_results_30_run :
  fst (get_multiple_cryptos (env_with chart30) CRYPTOCURRENCIES DEFAULT_DAYS
         initial_world)
  = Return (config_results (env_with chart30)).
Proof. vm_compute. reflexivity. Qed.

Lemma X16_witness :
  exists w',
    main env_ok initial_world = (Raise IndexError, w')
    /\ files w' = [].
Proof.
  destruct (X16_main_needs_thirty_records env_ok initial_world
              (config_results env_ok) config_results_ok_run)
    as (w' & Hrun & Hfiles & _).
  - exists "BTC"%string, (set_symbol frame3 "BTC").
    split; [vm_compute; left; reflexivity | vm_compute; lia].
  - exists w'. split; [exact Hrun | exact Hfiles].
Defined.

Lemma X17_witness :
  exists out w',
    main (env_with chart30) initial_world = (Return tt, w')
    /\ stdout w' = out ++ [MsgDone]
    /\ List.length (files w') = 7.
Proof.
  destruct (X17_main_saves_collection (env_with chart30) initial_world
              (config_results (env_with chart30)) config_results_30_run)
    as (out & w' & Hrun & Hout & _ & Hfiles).
  - intros H. vm_compute in H. discriminate H.
  - intros sym df Hin.
    assert (Hall : forallb (fun it => 30 <=? len (snd it))
                     (config_results (env_with chart30)) = true)
      by (vm_compute; reflexivity).
    rewrite forallb_forall in Hall. apply Hall in Hin.
    apply Nat.leb_le in Hin. exact Hin.
  - intros p. reflexivity.
  - exists out, w'. split; [exact Hrun|]. split; [exact Hout|].
    rewrite Hfiles. vm_compute. reflexivity.
Defined.

Lemma X18_witness :
  exists out w',
    main env_offline initial_world = (Return tt, w')
    /\ stdout w' = out ++ [MsgNothingCollected]
    /\ List.length (sent w') = 6
    /\ slept w' = 6.
Proof.
  destruct (X18_main_without_network env_offline initial_world)
    as (out & w' & Hrun & Hout & Hsent & Hslept & _).
  - intros rq. reflexivity.
  - exists out, w'. split; [exact Hrun|]. split; [exact Hout|].
    split; [rewrite Hsent; reflexivity | exact Hslept].
Defined.
